(** * OpenOffice VC plugin: extraction-and-enrichment pipeline

    A shallow embedding of [src/generate_vc_plugin.py] and
    [src/fetch_openoffice_advisory.py]: the identifier extractor, the
    bulletin parser, the detail fetcher with its retry loop, the record
    validator and the artifact renderer, followed by the properties the
    specification states about them. *)

From Stdlib Require Import NArith ZArith Lia Ascii String DecimalString.
From stdpp Require Import base option list gmap.

Set Warnings "-register-all".

Local Open Scope N_scope.
Local Open Scope list_scope.

(** ** Python strings

    A Python [str] is a sequence of Unicode code points.  The regular
    expressions of the program are [str] patterns, so their classes
    [\d] and [\s] are the Unicode ones; the code points are kept as
    numbers to be able to say so. *)

Abbreviation pystr := (list N).

(** [py "..."] is the [str] literal with the given (ASCII) text. *)
Definition py (s : string) : pystr :=
  N_of_ascii <$> list_ascii_of_string s.

(** [ch "c"] is the code point of an ASCII character. *)
Definition ch (a : ascii) : N := N_of_ascii a.

Definition in_range (lo hi c : N) : bool := (lo <=? c) && (c <=? hi).

(** The decimal digits of Unicode (general category Nd, Unicode 14.0 as
    shipped with CPython 3.11): the characters [\d] matches in a [str]
    pattern and the ones [Py_UNICODE_ISDECIMAL] accepts.  Each block is
    given by its first code point and its size. *)
Definition Nd_blocks : list (N * N) :=
  [ (0x30, 10); (0x660, 10); (0x6f0, 10); (0x7c0, 10); (0x966, 10);
    (0x9e6, 10); (0xa66, 10); (0xae6, 10); (0xb66, 10); (0xbe6, 10);
    (0xc66, 10); (0xce6, 10); (0xd66, 10); (0xde6, 10); (0xe50, 10);
    (0xed0, 10); (0xf20, 10); (0x1040, 10); (0x1090, 10); (0x17e0, 10);
    (0x1810, 10); (0x1946, 10); (0x19d0, 10); (0x1a80, 10); (0x1a90, 10);
    (0x1b50, 10); (0x1bb0, 10); (0x1c40, 10); (0x1c50, 10); (0xa620, 10);
    (0xa8d0, 10); (0xa900, 10); (0xa9d0, 10); (0xa9f0, 10); (0xaa50, 10);
    (0xabf0, 10); (0xff10, 10); (0x104a0, 10); (0x10d30, 10); (0x11066, 10);
    (0x110f0, 10); (0x11136, 10); (0x111d0, 10); (0x112f0, 10); (0x11450, 10);
    (0x114d0, 10); (0x11650, 10); (0x116c0, 10); (0x11730, 10); (0x118e0, 10);
    (0x11950, 10); (0x11c50, 10); (0x11d50, 10); (0x11da0, 10); (0x16a60, 10);
    (0x16ac0, 10); (0x16b50, 10); (0x1d7ce, 50); (0x1e140, 10); (0x1e2f0, 10);
    (0x1e950, 10); (0x1fbf0, 10) ].

(** [\d] *)
Definition isdecimal (c : N) : bool :=
  existsb (fun b => (fst b <=? c) && (c <? fst b + snd b)) Nd_blocks.

(** The white space of Unicode as [str.isspace], [str.strip] and [\s]
    see it. *)
Definition whitespace : list N :=
  [ 0x9; 0xa; 0xb; 0xc; 0xd; 0x1c; 0x1d; 0x1e; 0x1f; 0x20; 0x85; 0xa0;
    0x1680; 0x2000; 0x2001; 0x2002; 0x2003; 0x2004; 0x2005; 0x2006;
    0x2007; 0x2008; 0x2009; 0x200a; 0x2028; 0x2029; 0x202f; 0x205f;
    0x3000 ].

(** [\s] *)
Definition isspace (c : N) : bool := existsb (N.eqb c) whitespace.

(** The ASCII digits [0-9] of a character class. *)
Definition ascii_digit (c : N) : bool := in_range (ch "0") (ch "9") c.

(** *** String methods *)

(** [s.replace(old, new)] for one-character [old] and [new]. *)
Definition replace_char (old new : N) (s : pystr) : pystr :=
  (fun c => if c =? old then new else c) <$> s.

(** [s.lstrip(chars)], the characters to strip given as a predicate. *)
Fixpoint lstrip (p : N -> bool) (s : pystr) : pystr :=
  match s with
  | [] => []
  | c :: r => if p c then lstrip p r else s
  end.

Definition rstrip (p : N -> bool) (s : pystr) : pystr :=
  reverse (lstrip p (reverse s)).

(** [s.strip(chars)] *)
Definition strip (p : N -> bool) (s : pystr) : pystr :=
  rstrip p (lstrip p s).

(** [sep.join(parts)] *)
Fixpoint join (sep : pystr) (parts : list pystr) : pystr :=
  match parts with
  | [] => []
  | [p] => p
  | p :: rest => p ++ sep ++ join sep rest
  end.

(** *** Regular expressions of the program *)

(** [re.sub(r"\s+", repl, s)]: every maximal run of white space is replaced
    by [repl]; [in_run] says that the previous character belonged to a
    run that has been replaced already. *)
Fixpoint sub_space_runs (repl : pystr) (in_run : bool) (s : pystr) : pystr :=
  match s with
  | [] => []
  | c :: r =>
      if isspace c
      then (if in_run then [] else repl) ++ sub_space_runs repl true r
      else c :: sub_space_runs repl false r
  end.

(** The class [[A-Za-z0-9_.-]]. *)
Definition safe_char (c : N) : bool :=
  in_range (ch "A") (ch "Z") c || in_range (ch "a") (ch "z") c
  || in_range (ch "0") (ch "9") c
  || (c =? ch "_") || (c =? ch ".") || (c =? ch "-").

(** [safe_filename], the same in both programs. *)
Definition safe_filename (name : pystr) : pystr :=
  let name := replace_char (ch "/") (ch "_") name in
  let name := sub_space_runs (py "_") false name in
  let name := List.filter safe_char name in
  strip (N.eqb (ch "_")) name.

(** Matching a literal at the start of [s]: the rest of [s] behind it. *)
Fixpoint match_literal (lit s : pystr) : option pystr :=
  match lit, s with
  | [], _ => Some s
  | a :: lit', b :: s' => if a =? b then match_literal lit' s' else None
  | _ :: _, [] => None
  end.

(** The longest run of digits at the start of [s], and what follows it:
    the greedy [\d*]. *)
Fixpoint digits_run (s : pystr) : pystr * pystr :=
  match s with
  | c :: r =>
      if isdecimal c then let (d, rest) := digits_run r in (c :: d, rest)
      else ([], s)
  | [] => ([], [])
  end.

(** One attempt of the pattern [CVE-\d{4}-\d+] at the start of [s]: the
    text matched and the rest of [s].  The pattern has no alternative
    and its only repetition is the greedy last one, so an attempt has at
    most one outcome. *)
Definition match_cve (s : pystr) : option (pystr * pystr) :=
  match match_literal (py "CVE-") s with
  | None => None
  | Some s1 =>
      let year := take 4 s1 in
      if (length year =? 4)%nat && forallb isdecimal year then
        match match_literal (py "-") (drop 4 s1) with
        | None => None
        | Some s2 =>
            match digits_run s2 with
            | ([], _) => None
            | (num, rest) => Some (py "CVE-" ++ year ++ py "-" ++ num, rest)
            end
        end
      else None
  end.

(** [re.findall] for that pattern: the scan tries every position from
    the left and resumes behind a match.  [skip] counts the characters of
    the last match still to be passed over. *)
Fixpoint findall_cve (skip : nat) (s : pystr) : list pystr :=
  match s with
  | [] => []
  | _ :: r =>
      match skip with
      | S k => findall_cve k r
      | O =>
          match match_cve s with
          | Some (m, _) => m :: findall_cve (length m - 1) r
          | None => findall_cve 0 r
          end
      end
  end.

(** [extract_cve_ids], the same in both programs. *)
Definition extract_cve_ids (text : pystr) : list pystr :=
  findall_cve 0 text.

(** The pattern [^CVE-\d{4}-\d+$] on a whole string, for a given class
    [\d]: the string has the shape, with nothing before it and nothing
    behind it ([$] as the engine of pydantic reads it: the end of the
    string, not the place before a last line break). *)
Definition anchored_pattern (digit : N -> bool) (s : pystr) : bool :=
  match match_literal (py "CVE-") s with
  | None => false
  | Some s1 =>
      (length (take 4 s1) =? 4)%nat && forallb digit (take 4 s1)
      && match drop 4 s1 with
         | c :: num =>
             (c =? ch "-") && negb (length num =? 0)%nat && forallb digit num
         | [] => false
         end
  end.

(** That pattern with the decimal digits of Unicode 14.0 for [\d]:
    the class of [re], which the extractor uses, and a part of the
    class of any engine the validator runs on. *)
Definition cve_id_pattern (s : pystr) : bool :=
  match match_literal (py "CVE-") s with
  | None => false
  | Some s1 =>
      (length (take 4 s1) =? 4)%nat && forallb isdecimal (take 4 s1)
      && match drop 4 s1 with
         | c :: num =>
             (c =? ch "-") && negb (length num =? 0)%nat && forallb isdecimal num
         | [] => false
         end
  end.

(** ** Exceptions

    A call either returns a value or raises; the exceptions are the ones
    the two programs can meet. *)

Inductive exn :=
| RequestException   (* requests: transport failure or HTTP error status *)
| ValueError         (* urllib.parse: a link target that is no URL *)
| KeyError           (* subscript of a missing key *)
| OSError.           (* a file or directory that cannot be written *)

Inductive result (A : Type) :=
| Ok (a : A)
| Raise (e : exn).
Arguments Ok {A} a.
Arguments Raise {A} e.

Definition rbind {A B} (r : result A) (k : A -> result B) : result B :=
  match r with
  | Ok a => k a
  | Raise e => Raise e
  end.

(** ** Documents as BeautifulSoup presents them

    A parsed document is a tree of tags and text nodes.  The soup itself
    is the root tag (its name is [[document]]).  [Text] stands for the
    strings [get_text] collects; comments and the like, which it leaves
    out, are not kept in the tree. *)

Inductive node :=
| Text (s : pystr)
| Tag (name : pystr) (attrs : gmap pystr pystr) (children : list node).

(** An element as a search returns it: the node and the siblings that
    follow it under its parent. *)
Definition located : Type := node * list node.

Definition forest_of (sub : node -> list node -> list located)
  : list node -> list located :=
  fix go (l : list node) : list located :=
    match l with
    | [] => []
    | c :: behind => sub c behind ++ go behind
    end.

(** [n] and everything below it, in document order. *)
Fixpoint subtree (n : node) (behind : list node) : list located :=
  (n, behind) ::
  match n with
  | Text _ => []
  | Tag _ _ cs => forest_of subtree cs
  end.

(** [tag.descendants] *)
Definition descendants (n : node) : list located :=
  match n with
  | Text _ => []
  | Tag _ _ cs => forest_of subtree cs
  end.

Definition is_tag (name : pystr) (n : node) : bool :=
  match n with
  | Tag name' _ _ => bool_decide (name' = name)
  | Text _ => false
  end.

(** [tag.find_all(name)] *)
Definition find_all (name : pystr) (n : node) : list located :=
  List.filter (fun e => is_tag name (fst e)) (descendants n).

(** [tag.find(name)] *)
Definition find (name : pystr) (n : node) : option node :=
  fst <$> head (find_all name n).

(** [tag.find_next_sibling(name)] *)
Definition find_next_sibling (name : pystr) (e : located) : option node :=
  List.find (is_tag name) (snd e).

(** [tag.get(key)] *)
Definition tag_get (key : pystr) (n : node) : option pystr :=
  match n with
  | Tag _ attrs _ => attrs !! key
  | Text _ => None
  end.

(** [tag[key]] *)
Definition tag_getitem (key : pystr) (n : node) : result pystr :=
  match tag_get key n with
  | Some v => Ok v
  | None => Raise KeyError
  end.

Definition text_of (e : located) : option pystr :=
  match fst e with
  | Text s => Some s
  | Tag _ _ _ => None
  end.

Definition nonempty (s : pystr) : bool :=
  match s with
  | [] => false
  | _ :: _ => true
  end.

(** [tag.get_text(strip=True)]: the strings below the tag, each stripped
    of white space, the empty ones dropped, the others joined by the
    empty separator. *)
Definition get_text_strip (n : node) : pystr :=
  concat (List.filter nonempty
            (strip isspace <$> omap text_of (descendants n))).

(** [soup.select("#content p")]: the [p] tags that have an ancestor whose
    [id] is [content], in document order; [inside] says that such an
    ancestor has been passed. *)
Fixpoint select_p (inside : bool) (n : node) : list node :=
  match n with
  | Text _ => []
  | Tag name attrs cs =>
      (if inside && bool_decide (name = py "p") then [n] else [])
      ++ flat_map
           (select_p (inside || bool_decide (attrs !! py "id" = Some (py "content"))))
           cs
  end.

Definition select_content_p (soup : node) : list node := select_p false soup.

(** ** JSON values, as [json.loads] returns them ([null] is [None]) *)

Inductive json :=
| JNull
| JBool (b : bool)
| JNumber (literal : pystr)
| JString (s : pystr)
| JArray (items : list json)
| JObject (members : gmap pystr json).

(** ** What the libraries decide

    The HTML parser, the URL resolver, the URL validator and the JSON
    reader are library code; the programs are embedded over any
    behaviour of theirs. *)

Record library := {
  (** [BeautifulSoup(html, "lxml")] *)
  BeautifulSoup : pystr -> node;
  (** [urljoin(base, url)]; it raises [ValueError] on some targets. *)
  urljoin : pystr -> pystr -> result pystr;
  (** Validation of a string as [HttpUrl]: the URL as [str] prints it,
      or nothing when the string is refused. *)
  HttpUrl : pystr -> option pystr;
  (** [json.loads] on a text. *)
  json_loads : pystr -> option json;
  (** The characters that [\d] matches in the regular expression
      engine pydantic checks a [pattern] with, beyond the decimal
      digits of Unicode 14.0: that engine is not the one of [re], and
      it follows a later version of Unicode, with further digits. *)
  pattern_digit : N -> bool;
}.

(** [\d] in a [pattern] of pydantic: the decimal digits of Unicode
    14.0, and the further ones of the engine, which lie beyond ASCII. *)
Definition pydantic_digit (L : library) (c : N) : bool :=
  isdecimal c || ((127 <? c) && pattern_digit L c).

(** The constraint [pattern=r"^CVE-\d{4}-\d+$"] of the field [cve_id]. *)
Definition cve_id_constraint (L : library) (s : pystr) : bool :=
  anchored_pattern (pydantic_digit L) s.

(** ** Configuration *)

Definition PRODUCT_NAME : pystr := py "OpenOffice".
Definition BASE_URL : pystr :=
  py "https://www.openoffice.org/security/bulletin.html".

(** [Path / name] and [os.path.join(dir, name)] for a one-segment
    [name]: an absolute [name] replaces the directory. *)
Definition path_join (dir name : pystr) : pystr :=
  match name with
  | c :: _ => if c =? ch "/" then name else dir ++ py "/" ++ name
  | [] => dir ++ py "/" ++ name
  end.

Definition DATA_DIR : pystr := py "data".
Definition RAW_DIR : pystr := path_join DATA_DIR (py "raw").
Definition PARSED_DIR : pystr := path_join DATA_DIR (py "parsed").
Definition CVES_DIR : pystr := path_join PARSED_DIR (py "cves").
Definition CONTENT_ROOT : pystr := py "Content/" ++ PRODUCT_NAME.
Definition CVES_CONTENT_DIR : pystr := path_join CONTENT_ROOT (py "CVEs").

(** ** Bulletin parser *)

(** One entry of [vulns]: the dictionary with the keys [cve_id],
    [version], [summary] and [link]. *)
Record vuln := {
  v_cve_id : pystr;
  v_version : pystr;
  v_summary : pystr;
  v_link : pystr;
}.

(** A [for] loop over [l] whose body appends to one list and may raise. *)
Fixpoint for_append {A B} (body : A -> result (list B)) (l : list A)
  : result (list B) :=
  match l with
  | [] => Ok []
  | x :: rest =>
      rbind (body x) (fun ys =>
      rbind (for_append body rest) (fun zs => Ok (ys ++ zs)))
  end.

Section Parser.
Variable L : library.

(** The body of the loop over the items of a list. *)
Definition parse_item (version : pystr) (li : node) : result (list vuln) :=
  match find (py "a") li with
  | None => Ok []
  | Some a =>
      match tag_get (py "href") a with
      | None | Some [] => Ok []
      | Some _ =>
          let cve_ids := extract_cve_ids (get_text_strip a) in
          rbind (tag_getitem (py "href") a) (fun href =>
          rbind (urljoin L BASE_URL href) (fun cve_url =>
          let summary := get_text_strip li in
          Ok ((fun cve_id =>
                 {| v_cve_id := cve_id; v_version := version;
                    v_summary := summary; v_link := cve_url |})
              <$> cve_ids)))
      end
  end.

(** The body of the loop over the headings. *)
Definition parse_header (header : located) : result (list vuln) :=
  let version := get_text_strip (fst header) in
  match find_next_sibling (py "ul") header with
  | None => Ok []
  | Some ul => for_append (parse_item version) (fst <$> find_all (py "li") ul)
  end.

Definition parse_soup (soup : node) : result (list vuln) :=
  for_append parse_header (find_all (py "h3") soup).

(** [parse_vulnerabilities], the same in both programs. *)
Definition parse_vulnerabilities (html : pystr) : result (list vuln) :=
  parse_soup (BeautifulSoup L html).
End Parser.

(** ** Files, the network and the clock

    The programs act on the outside world by HTTP requests, pauses and
    file writes.  A run is described by its history, the list of these
    events with the latest first.  Console output is left out. *)

(** An XML element of [xml.etree.ElementTree]. *)
Inductive xml :=
| Element (tag : pystr) (text : option pystr) (children : list xml).

(** The content of a file: what was written, before serialisation
    ([json.dumps] and [ElementTree.write] are functions of it), or any
    other text. *)
Inductive file :=
| JsonFile (data : json)
| XmlFile (root : xml)
| TextFile (s : pystr).

Inductive event :=
| Get (url : pystr)                          (* requests.get(url, ...) *)
| Sleep (milliseconds : N)                   (* sleep(...) *)
| WriteFile (path : pystr) (content : file). (* write_text, open(.., "w"), tree.write *)

Abbreviation history := (list event).

Record environment := {
  (** The text of the response to a request made after the given
      history, or nothing when [requests.get] or [raise_for_status]
      raises [RequestException]. *)
  requests_get : history -> pystr -> option pystr;
  (** [datetime.utcnow().isoformat()] after the given history. *)
  utcnow : history -> pystr;
  (** The files present before the run. *)
  disk : pystr -> option file;
}.

(** Computations: from the history so far to a returned value or an
    exception, and the history extended. *)
Definition M (A : Type) : Type := history -> result A * history.

Definition ret {A} (a : A) : M A := fun h => (Ok a, h).

Definition raise {A} (e : exn) : M A := fun h => (Raise e, h).

Definition bind {A B} (m : M A) (k : A -> M B) : M B :=
  fun h =>
    match m h with
    | (Ok a, h') => k a h'
    | (Raise e, h') => (Raise e, h')
    end.

Definition lift {A} (r : result A) : M A := fun h => (r, h).

Definition emit (e : event) : M unit := fun h => (Ok tt, e :: h).

(** [try: m except requests.exceptions.RequestException: handler] *)
Definition except_RequestException {A} (m handler : M A) : M A :=
  fun h =>
    match m h with
    | (Raise RequestException, h') => handler h'
    | other => other
    end.

Declare Scope prog_scope.
Delimit Scope prog_scope with prog.
Notation "x <- m ;; k" := (bind m (fun x => k))
  (at level 100, m at next level, right associativity) : prog_scope.
Notation "m ;; k" := (bind m (fun _ => k))
  (at level 100, right associativity) : prog_scope.

Definition sleep (milliseconds : N) : M unit := emit (Sleep milliseconds).

(** A write that goes through; the file systems that refuse one are
    the subject of [Disk] below. *)
Definition write_file (path : pystr) (content : file) : M unit :=
  emit (WriteFile path content).

(** The latest content written to [path] in a history. *)
Fixpoint written (path : pystr) (h : history) : option file :=
  match h with
  | [] => None
  | WriteFile p c :: older =>
      if bool_decide (p = path) then Some c else written path older
  | _ :: older => written path older
  end.

(** [str(n)] for a length. *)
Definition str_of_nat (n : nat) : pystr :=
  py (NilEmpty.string_of_uint (Nat.to_uint n)).

(** [range(lo, hi)] *)
Definition py_range (lo hi : Z) : list Z :=
  (fun i => (lo + Z.of_nat i)%Z) <$> seq 0 (Z.to_nat (hi - lo)).

(** [dict.get(key, default)] *)
Definition dict_get (d : gmap pystr json) (key : pystr) (default : json) : json :=
  match d !! key with
  | Some v => v
  | None => default
  end.

(** ** The model [CVE] *)

Record CVE := {
  cve_id : pystr;
  affected_version : pystr;
  description : pystr;
  source_url : option pystr;
}.

(** A field of type [str]: a string is taken as it is, anything else is
    a validation error. *)
Definition validate_str (v : json) : option pystr :=
  match v with
  | JString s => Some s
  | _ => None
  end.

Section Programs.
Variable L : library.
Variable E : environment.

Local Open Scope prog_scope.

(** [requests.get(url, headers=HEADERS, timeout=15)] followed by
    [response.raise_for_status()]; the value is [response.text]. *)
Definition http_get (url : pystr) : M pystr :=
  fun h =>
    match requests_get E h url with
    | Some body => (Ok body, Get url :: h)
    | None => (Raise RequestException, Get url :: h)
    end.

(** The content of the file at [path] after a history. *)
Definition read_file (h : history) (path : pystr) : option file :=
  match written path h with
  | Some c => Some c
  | None => disk E path
  end.

(** [json.loads(text)] on the text of a file. *)
Definition load_json (f : file) : option json :=
  match f with
  | JsonFile data => Some data
  | XmlFile _ => None
  | TextFile s => json_loads L s
  end.

(** *** Detail fetcher *)

(** The description of a detail page. *)
Definition page_description (response_text summary : pystr) : pystr :=
  let soup := BeautifulSoup L response_text in
  let paragraphs := select_content_p soup in
  let description := join (py " ") (get_text_strip <$> paragraphs) in
  if nonempty description then description else summary.

(** The dictionary [data] written for a reference. *)
Definition cve_data (cve : vuln) (description : pystr) : json :=
  JObject
    (<[py "cve_id" := JString (v_cve_id cve)]>
     (<[py "affected_version" := JString (v_version cve)]>
      (<[py "description" := JString description]>
       (<[py "source_url" := JString (v_link cve)]> ∅)))).

(** The body of [try] in [fetch_and_save_cve_json]. *)
Definition try_fetch_json (cve : vuln) : M (option pystr) :=
  response_text <- http_get (v_link cve) ;;
  let description := page_description response_text (v_summary cve) in
  let data := cve_data cve description in
  let filename := safe_filename (v_cve_id cve) ++ py ".json" in
  let path := path_join CVES_DIR filename in
  write_file path (JsonFile data) ;;
  sleep 500 ;;
  ret (Some path).

Fixpoint fetch_json_attempts (cve : vuln) (attempts : list Z)
  : M (option pystr) :=
  match attempts with
  | [] => ret None
  | _ :: rest =>
      except_RequestException (try_fetch_json cve)
        (sleep 2000 ;; fetch_json_attempts cve rest)
  end.

(** [fetch_and_save_cve_json] of [generate_vc_plugin.py] *)
Definition fetch_and_save_cve_json (cve : vuln) (retries : Z)
  : M (option pystr) :=
  fetch_json_attempts cve (py_range 1 (retries + 1)).

(** The body of [try] in [fetch_and_save_cve]: it ends in a bare
    [return]. *)
Definition try_fetch (cve : vuln) : M (option pystr) :=
  response_text <- http_get (v_link cve) ;;
  let description := page_description response_text (v_summary cve) in
  let data := cve_data cve description in
  let filename := safe_filename (v_cve_id cve) ++ py ".json" in
  let path := path_join CVES_DIR filename in
  write_file path (JsonFile data) ;;
  sleep 700 ;;
  ret None.

Fixpoint fetch_attempts (cve : vuln) (attempts : list Z)
  : M (option pystr) :=
  match attempts with
  | [] => ret None
  | _ :: rest =>
      except_RequestException (try_fetch cve)
        (sleep 2000 ;; fetch_attempts cve rest)
  end.

(** [fetch_and_save_cve] of [fetch_openoffice_advisory.py] *)
Definition fetch_and_save_cve (cve : vuln) (retries : Z)
  : M (option pystr) :=
  fetch_attempts cve (py_range 1 (retries + 1)).

(** *** Record validator *)

(** A field of type [Optional[HttpUrl]]. *)
Definition validate_optional_url (v : json) : option (option pystr) :=
  match v with
  | JNull => Some None
  | JString s =>
      match HttpUrl L s with
      | Some url => Some (Some url)
      | None => None
      end
  | _ => None
  end.

(** [CVE(cve_id=.., affected_version=.., description=.., source_url=..)]:
    the object, or nothing when pydantic raises a validation error. *)
Definition CVE_init (id version descr url : json) : option CVE :=
  match validate_str id, validate_str version, validate_str descr,
        validate_optional_url url with
  | Some id, Some version, Some descr, Some url =>
      if cve_id_constraint L id
      then Some {| cve_id := id; affected_version := version;
                   description := descr; source_url := url |}
      else None
  | _, _, _, _ => None
  end.

(** The [try] block of [generate_cve_content] on the loaded value;
    [data.get] exists on a dictionary only. *)
Definition cve_of_data (data : json) : option CVE :=
  match data with
  | JObject d =>
      CVE_init (dict_get d (py "cve_id") (JString (py "UNKNOWN")))
               (dict_get d (py "affected_version") (JString (py "UNKNOWN")))
               (dict_get d (py "description")
                  (JString (py "No description available")))
               (dict_get d (py "source_url") JNull)
  | _ => None
  end.

(** The [try] block of [generate_cve_content]: every exception in it
    ends in [return None]. *)
Definition load_cve (h : history) (cve_json_path : pystr) : option CVE :=
  match read_file h cve_json_path with
  | None => None
  | Some f =>
      match load_json f with
      | None => None
      | Some data => cve_of_data data
      end
  end.

(** *** Artifact renderer *)

Definition SubElement (tag text : pystr) : xml := Element tag (Some text) [].

Definition reference_text (c : CVE) : pystr :=
  match source_url c with
  | Some url => url
  | None => []
  end.

Definition vulnerability_xml (c : CVE) : xml :=
  Element (py "VULNERABILITY") None
    [ SubElement (py "ID") (cve_id c);
      SubElement (py "PRODUCT") PRODUCT_NAME;
      SubElement (py "AFFECTED_VERSION") (affected_version c);
      SubElement (py "DESCRIPTION") (description c);
      SubElement (py "REFERENCE") (reference_text c) ].

Definition solution_xml (c : CVE) : xml :=
  Element (py "SOLUTION") None
    [ SubElement (py "CVE") (cve_id c);
      SubElement (py "FIX")
        (py "Upgrade to the latest supported " ++ PRODUCT_NAME
         ++ py " version.") ].

Definition plugin_entry_xml (c : CVE) (now : pystr) : xml :=
  Element (py "VC_PLUGIN_ENTRY") None
    [ SubElement (py "ID") (cve_id c);
      SubElement (py "PRODUCT") PRODUCT_NAME;
      SubElement (py "AFFECTED_VERSION") (affected_version c);
      SubElement (py "DESCRIPTION") (description c);
      SubElement (py "REFERENCE") (reference_text c);
      SubElement (py "GENERATED_AT") (now ++ py "Z") ].

Definition write_xml (path : pystr) (root : xml) : M unit :=
  write_file path (XmlFile root).

Definition now : M pystr := fun h => (Ok (utcnow E h), h).

(** [generate_cve_content] *)
Definition generate_cve_content (cve_json_path : pystr) : M (option CVE) :=
  fun h =>
    match load_cve h cve_json_path with
    | None => (Ok None, h)
    | Some cve_obj =>
        (write_xml (path_join CVES_CONTENT_DIR (cve_id cve_obj ++ py ".xml"))
           (vulnerability_xml cve_obj) ;;
         write_xml (path_join CVES_CONTENT_DIR (cve_id cve_obj ++ py ".sol"))
           (solution_xml cve_obj) ;;
         t <- now ;;
         write_xml (path_join CVES_CONTENT_DIR (cve_id cve_obj ++ py ".vck"))
           (plugin_entry_xml cve_obj t) ;;
         ret (Some cve_obj)) h
    end.

Definition product_xml (total : nat) (t : pystr) : xml :=
  Element (py "VC_PLUGIN") None
    [ SubElement (py "PRODUCT") PRODUCT_NAME;
      SubElement (py "VERSION") (py "1.0");
      SubElement (py "GENERATED_AT") (t ++ py "Z");
      SubElement (py "TOTAL_CVES") (str_of_nat total) ].

Definition product_path : pystr := path_join CONTENT_ROOT (py "product.vck").

(** [generate_product_vck] *)
Definition generate_product_vck (all_cves : list CVE) : M unit :=
  t <- now ;;
  write_xml product_path (product_xml (length all_cves) t).

(** *** The run *)

(** [fetch_advisory_index] *)
Definition fetch_advisory_index : M pystr :=
  html_content <- http_get BASE_URL ;;
  write_file (path_join RAW_DIR (py "openoffice_advisory.html"))
    (TextFile html_content) ;;
  ret html_content.

(** The body of the loop of [main]; [validated_cves] is threaded
    through it. *)
Definition process (validated_cves : list CVE) (cve : vuln) : M (list CVE) :=
  cve_json_path <- fetch_and_save_cve_json cve 3 ;;
  match cve_json_path with
  | Some path =>
      cve_obj <- generate_cve_content path ;;
      match cve_obj with
      | Some c => ret (validated_cves ++ [c])
      | None => ret validated_cves
      end
  | None => ret validated_cves
  end.

Fixpoint for_each {S A} (body : S -> A -> M S) (s : S) (l : list A) : M S :=
  match l with
  | [] => ret s
  | x :: rest => s' <- body s x ;; for_each body s' rest
  end.

(** [main] of [generate_vc_plugin.py] *)
Definition main : M unit :=
  html <- fetch_advisory_index ;;
  vulns <- lift (parse_vulnerabilities L html) ;;
  validated_cves <- for_each process [] vulns ;;
  generate_product_vck validated_cves.
End Programs.

(** ** The specification's words, for comparison with the programs *)

(** A string of the shape [CVE-<4 digits>-<1+ digits>], for a given
    notion of digit. *)
Definition CVE_shaped (digit : N -> bool) (m : pystr) : Prop :=
  exists year num,
    m = py "CVE-" ++ year ++ py "-" ++ num
    /\ length year = 4%nat /\ forallb digit year = true
    /\ num <> [] /\ forallb digit num = true.

(** Some match of the pattern starts at the first character of [s]. *)
Definition match_starts (s : pystr) : Prop :=
  exists m rest, s = m ++ rest /\ CVE_shaped isdecimal m.

(** The non-overlapping matches of a text from left to right: a
    position where no match starts is passed over; where one starts, the
    longest one is taken and the search goes on behind it. *)
Inductive matches_of : pystr -> list pystr -> Prop :=
| matches_end : matches_of [] []
| matches_pass c s ms :
    ~ match_starts (c :: s) -> matches_of s ms -> matches_of (c :: s) ms
| matches_take m rest ms :
    CVE_shaped isdecimal m ->
    (forall c, head rest = Some c -> isdecimal c = false) ->
    matches_of rest ms ->
    matches_of (m ++ rest) (m :: ms).

(** [gaps] and [ms] laid out in turn: a gap, a match, a gap, ... *)
Fixpoint weave (gaps ms : list pystr) : pystr :=
  match gaps, ms with
  | g :: gaps', m :: ms' => g ++ m ++ weave gaps' ms'
  | g :: _, [] => g
  | [], _ => []
  end.

(** The paths written in a history, the latest first. *)
Definition written_paths (h : history) : list pystr :=
  omap (fun e => match e with WriteFile p _ => Some p | _ => None end) h.

(** ** Inputs of the examples *)

(** [CVE-٠٠٠٠-١], written with ARABIC-INDIC digits (U+0660, U+0661). *)
Definition arabic_indic_id : pystr :=
  py "CVE-" ++ [0x660; 0x660; 0x660; 0x660] ++ py "-" ++ [0x661].

(** The events of [n] failed attempts on [url], the latest first: each
    request is followed by the pause of two seconds. *)
Definition failed_attempts (url : pystr) (n : nat) : history :=
  concat (replicate n [Sleep 2000; Get url]).

(** The write of the record of [cve] when its page has the text [body]. *)
Definition saved_record (L : library) (cve : vuln) (body : pystr) : event :=
  WriteFile (path_join CVES_DIR (safe_filename (v_cve_id cve) ++ py ".json"))
    (JsonFile (cve_data cve (page_description L body (v_summary cve)))).

(** The number of requests in a history. *)
Definition requests_made (h : history) : nat :=
  length (List.filter (fun e => match e with Get _ => true | _ => false end) h).

(** A detail page whose content region holds one paragraph, and that
    paragraph is empty:
    [<html><body><div id="content"><p></p></div></body></html>]. *)
Definition empty_paragraph_page : node :=
  Tag (py "[document]") ∅
    [ Tag (py "html") ∅
        [ Tag (py "body") ∅
            [ Tag (py "div") {[ py "id" := py "content" ]}
                [ Tag (py "p") ∅ [] ] ] ] ].

(** The decimal digits that Unicode 15.0 adds to those of Unicode
    14.0: the KAWI and the NAG MUNDARI digits. *)
Definition unicode15_digit (c : N) : bool :=
  in_range 0x11f50 0x11f59 c || in_range 0x1e4f0 0x1e4f9 c.

(** Library behaviour for the examples: every text parses to [soup],
    link targets are absolute already (joining returns the target)
    apart from [//[], on which [urljoin] raises, URLs are valid and
    print as they are written, and patterns are read with the digits of
    Unicode 15.0. *)
Definition example_library (soup : node) : library :=
  {| BeautifulSoup := fun _ => soup;
     urljoin := fun _ url =>
       if bool_decide (url = py "//[") then Raise ValueError else Ok url;
     HttpUrl := fun s => Some s;
     json_loads := fun _ => None;
     pattern_digit := unicode15_digit |}.

(** A world in which every request fails. *)
Definition server_down : environment :=
  {| requests_get := fun _ _ => None;
     utcnow := fun _ => py "2024-01-01T00:00:00";
     disk := fun _ => None |}.

(** A world in which every request is answered with [text]; the clock
    shows the number of events so far. *)
Definition server_up (text : pystr) : environment :=
  {| requests_get := fun _ _ => Some text;
     utcnow := fun h => py "2024-01-01T00:00:" ++ str_of_nat (length h);
     disk := fun _ => None |}.

(** A reference as the parser produces it. *)
Definition example_vuln : vuln :=
  {| v_cve_id := py "CVE-2021-9999";
     v_version := py "1.0";
     v_summary := py "CVE-2021-9999 buffer overflow";
     v_link := py "https://www.openoffice.org/adv/1.html" |}.

(** The text [<div id=content><p></p></div>] of [empty_paragraph_page]. *)
Definition empty_paragraph_text : pystr := py "<div id=content><p></p></div>".

(** The candidates the validator lets through, in the specification's
    terms: an object whose identifier is a string of the anchored shape
    (its digits being those of the validator's pattern engine), whose
    version and description are strings when they are present,
    and whose source URL is absent, [null] or a string the URL type
    accepts. *)
Definition acceptable (L : library) (data : json) : Prop :=
  exists d,
    data = JObject d
    /\ (exists id, d !! py "cve_id" = Some (JString id)
                   /\ CVE_shaped (pydantic_digit L) id)
    /\ (d !! py "affected_version" = None
        \/ exists s, d !! py "affected_version" = Some (JString s))
    /\ (d !! py "description" = None
        \/ exists s, d !! py "description" = Some (JString s))
    /\ (d !! py "source_url" = None
        \/ d !! py "source_url" = Some JNull
        \/ exists s url, d !! py "source_url" = Some (JString s)
                         /\ HttpUrl L s = Some url).

(** A candidate whose version is [null]. *)
Definition null_version_data : json :=
  JObject (<[py "cve_id" := JString (py "CVE-2020-1")]>
           (<[py "affected_version" := JNull]>
            (<[py "description" := JString (py "Heap overflow.")]> ∅))).

(** A candidate whose version and description are empty strings. *)
Definition empty_fields_data : json :=
  JObject (<[py "cve_id" := JString (py "CVE-2020-1")]>
           (<[py "affected_version" := JString []]>
            (<[py "description" := JString []]> ∅))).

(** A candidate whose description is [null]; it has no source URL. *)
Definition null_description_data : json :=
  JObject (<[py "cve_id" := JString (py "CVE-2020-1")]>
           (<[py "affected_version" := JString (py "1.0")]>
            (<[py "description" := JNull]> ∅))).

(** A list of one item that links [CVE-2020-1] to [target]:
    [<ul><li><a href=target>CVE-2020-1</a></li></ul>]. *)
Definition one_item_list (target : pystr) : node :=
  Tag (py "ul") ∅
    [ Tag (py "li") ∅
        [ Tag (py "a") {[ py "href" := target ]} [ Text (py "CVE-2020-1") ] ] ].

Definition heading (label : pystr) : node := Tag (py "h3") ∅ [ Text label ].

Definition page (body : list node) : node :=
  Tag (py "[document]") ∅ [ Tag (py "html") ∅ [ Tag (py "body") ∅ body ] ].

Definition example_target : pystr :=
  py "https://www.openoffice.org/security/cves/CVE-2020-1.html".

(** Two headings in front of one list:
    [<h3>4.1</h3><h3>4.0</h3><ul>...</ul>]. *)
Definition two_headings_one_list : node :=
  page [ heading (py "4.1"); heading (py "4.0"); one_item_list example_target ].

(** A heading, a paragraph, and only then a list:
    [<h3>4.1</h3><p>Fixed in 4.1.1</p><ul>...</ul>]. *)
Definition heading_paragraph_list : node :=
  page [ heading (py "4.1");
         Tag (py "p") ∅ [ Text (py "Fixed in 4.1.1") ];
         one_item_list example_target ].

(** A list item whose link target is [//[]: [urljoin] raises
    [ValueError] (invalid IPv6 URL) on it. *)
Definition bad_target_list : node :=
  page [ heading (py "4.1"); one_item_list (py "//[") ].

(** The texts of the three bulletins above. *)
Definition two_headings_text : pystr :=
  py "<h3>4.1</h3><h3>4.0</h3><ul><li><a href=https://www.openoffice.org/security/cves/CVE-2020-1.html>CVE-2020-1</a></li></ul>".

Definition heading_paragraph_text : pystr :=
  py "<h3>4.1</h3><p>Fixed in 4.1.1</p><ul><li><a href=https://www.openoffice.org/security/cves/CVE-2020-1.html>CVE-2020-1</a></li></ul>".

Definition bad_target_text : pystr :=
  py "<h3>4.1</h3><ul><li><a href=//[>CVE-2020-1</a></li></ul>".

(** The reference to [CVE-2020-1] under the heading [label]. *)
Definition example_reference (label : pystr) : vuln :=
  {| v_cve_id := py "CVE-2020-1"; v_version := label;
     v_summary := py "CVE-2020-1"; v_link := example_target |}.

(** A document with the text of its [GENERATED_AT] fields left out. *)
Definition blank_generated_at (x : xml) : xml :=
  match x with
  | Element tag text children =>
      Element tag text
        ((fun c =>
            match c with
            | Element t txt cs =>
                if bool_decide (t = py "GENERATED_AT")
                then Element t None cs else c
            end) <$> children)
  end.

(** A record as fetched, and a history in which it has been saved. *)
Definition example_record_path : pystr :=
  py "data/parsed/cves/CVE-2021-9999.json".

Definition example_saved : history :=
  [ WriteFile example_record_path
      (JsonFile (cve_data example_vuln (py "Heap overflow. Fix in 1.0.1."))) ].

Definition example_cve : CVE :=
  {| cve_id := py "CVE-2021-9999";
     affected_version := py "1.0";
     description := py "Heap overflow. Fix in 1.0.1.";
     source_url := Some (py "https://www.openoffice.org/adv/1.html") |}.




(** ** The end-to-end scenarios of the specification

    A bulletin with the heading [1.0] and one item that links the text
    [CVE-2021-9999 buffer overflow] to [/adv/1.html]; the detail page
    holds the paragraphs [Heap overflow.] and [Fix in 1.0.1.]. *)

Definition scenario_bulletin_text : pystr :=
  py "<h3>1.0</h3><ul><li><a href=/adv/1.html>CVE-2021-9999 buffer overflow</a></li></ul>".

Definition scenario_bulletin : node :=
  page [ heading (py "1.0");
         Tag (py "ul") ∅
           [ Tag (py "li") ∅
               [ Tag (py "a") {[ py "href" := py "/adv/1.html" ]}
                   [ Text (py "CVE-2021-9999 buffer overflow") ] ] ] ].

Definition scenario_detail_text : pystr :=
  py "<div id=content><p>Heap overflow.</p><p>Fix in 1.0.1.</p></div>".

Definition scenario_detail : node :=
  page [ Tag (py "div") {[ py "id" := py "content" ]}
           [ Tag (py "p") ∅ [ Text (py "Heap overflow.") ];
             Tag (py "p") ∅ [ Text (py "Fix in 1.0.1.") ] ] ].

(** The libraries on the texts and targets of the scenario. *)
Definition scenario_library : library :=
  {| BeautifulSoup := fun text =>
       if bool_decide (text = scenario_bulletin_text)
       then scenario_bulletin else scenario_detail;
     urljoin := fun _ url =>
       if bool_decide (url = py "/adv/1.html")
       then Ok (py "https://www.openoffice.org/adv/1.html") else Ok url;
     HttpUrl := fun s => Some s;
     json_loads := fun _ => None;
     pattern_digit := unicode15_digit |}.

(** The site of the scenario; [detail_up] says whether the detail page
    can be retrieved. *)
Definition scenario_site (detail_up : bool) : environment :=
  {| requests_get := fun _ url =>
       if bool_decide (url = BASE_URL) then Some scenario_bulletin_text
       else if detail_up then Some scenario_detail_text else None;
     utcnow := fun _ => py "2024-01-01T00:00:00";
     disk := fun _ => None |}.

(** A candidate that holds an identifier and nothing else. *)
Definition bare_candidate : gmap pystr json :=
  {[ py "cve_id" := JString (py "CVE-2020-1") ]}.

(** A candidate whose identifier lacks two digits of the year. *)
Definition short_year_data : json :=
  JObject (<[py "cve_id" := JString (py "CVE-20-1")]>
           (<[py "affected_version" := JString (py "1.0")]>
            (<[py "description" := JString (py "Heap overflow.")]> ∅))).

(** The item and the link of [scenario_bulletin]. *)
Definition scenario_link : node :=
  Tag (py "a") {[ py "href" := py "/adv/1.html" ]}
    [ Text (py "CVE-2021-9999 buffer overflow") ].

Definition scenario_item : node := Tag (py "li") ∅ [ scenario_link ].

(** ** Notions for further properties *)

(** [x] lies in [y] as one piece. *)
Definition part_of {A} (x y : list A) : Prop :=
  exists before behind, y = before ++ x ++ behind.

(** [n] and every node below it. *)
Fixpoint all_nodes (n : node) : list node :=
  n :: match n with
       | Text _ => []
       | Tag _ _ cs => flat_map all_nodes cs
       end.

(** No tag of the document carries the [id] of the content region. *)
Definition no_content_region (soup : node) : Prop :=
  Forall (fun n => tag_get (py "id") n <> Some (py "content")) (all_nodes soup).

(** The request for [link] fails [k] times in a row from the history
    [h] on, the pauses included, and is answered with [body] at the
    next attempt. *)
Definition first_success (E : environment) (link : pystr) (h : history)
    (k : nat) (body : pystr) : Prop :=
  (forall j, (j < k)%nat ->
             requests_get E (failed_attempts link j ++ h) link = None)
  /\ requests_get E (failed_attempts link k ++ h) link = Some body.

(** The path of the record of an identifier. *)
Definition record_path (id : pystr) : pystr :=
  path_join CVES_DIR (safe_filename id ++ py ".json").

(** What a call of a fetcher for [cve] may add to the history [h]: at
    most [budget] requests, and at most one file, the record of [cve]
    in [data/parsed/cves]. *)
Definition within_footprint (cve : vuln) (budget : nat) (h h' : history)
  : Prop :=
  exists new,
    h' = new ++ h
    /\ (requests_made new <= budget)%nat
    /\ (written_paths new = []
        \/ written_paths new
           = [ py "data/parsed/cves/" ++ safe_filename (v_cve_id cve)
               ++ py ".json" ]).

(** The path of a rendered document of an identifier. *)
Definition content_path (id ext : pystr) : pystr :=
  path_join CVES_CONTENT_DIR (id ++ ext).


(** ** The rest of [fetch_openoffice_advisory.py] *)

(** [ensure_directories]: it makes sure that [data/raw] and
    [data/parsed/cves] exist.  Directories are no part of a history,
    which holds requests, pauses and the contents written to files;
    here they can be created. *)
Definition ensure_directories : M unit := ret tt.

(** An entry of [vulns] as [json.dump] writes it. *)
Definition vuln_json (v : vuln) : json :=
  JObject
    (<[py "cve_id" := JString (v_cve_id v)]>
     (<[py "version" := JString (v_version v)]>
      (<[py "summary" := JString (v_summary v)]>
       (<[py "link" := JString (v_link v)]> ∅)))).

Definition summary_path : pystr :=
  path_join PARSED_DIR (py "openoffice_vulns.json").

(** The body of the loop of [main]: the value of [fetch_and_save_cve]
    is not used. *)
Definition fetch_each (L : library) (E : environment)
  : unit -> vuln -> M unit :=
  fun _ cve => bind (fetch_and_save_cve L E cve 3) (fun _ => ret tt).

(** [main] of [fetch_openoffice_advisory.py] *)
Definition advisory_main (L : library) (E : environment) : M unit :=
  bind ensure_directories (fun _ =>
  bind (fetch_advisory_index E) (fun html =>
  bind (lift (parse_vulnerabilities L html)) (fun vulns =>
  bind (write_file summary_path (JsonFile (JArray (vuln_json <$> vulns))))
    (fun _ =>
  for_each (fetch_each L E) tt vulns)))).

(** ** The programs on a file system that can refuse a write

    [Path.write_text], [open(path, "w")], [ElementTree.write] and
    [os.makedirs] raise [OSError] when the file or directory cannot be
    created or opened for writing: a name the file system does not
    take, a missing directory, a missing permission.  Neither program
    catches it: the [try] of the fetchers handles [RequestException]
    only, and the writes of the renderer follow its [try].

    In the definitions above every write goes through.  The ones of
    this module are the same programs with the file system as a
    parameter: [writable h path] says whether [path] can be created or
    opened for writing after the history [h].  A refused write raises
    [OSError] and leaves the files as they were. *)

Module Disk.
Section Programs.
Variable writable : history -> pystr -> bool.
Variable L : library.
Variable E : environment.

Local Open Scope prog_scope.

Definition write_file (path : pystr) (content : file) : M unit :=
  fun h =>
    if writable h path then (Ok tt, WriteFile path content :: h)
    else (Raise OSError, h).

(** The body of [try] in [fetch_and_save_cve_json]. *)
Definition try_fetch_json (cve : vuln) : M (option pystr) :=
  response_text <- http_get E (v_link cve) ;;
  let description := page_description L response_text (v_summary cve) in
  let data := cve_data cve description in
  let filename := safe_filename (v_cve_id cve) ++ py ".json" in
  let path := path_join CVES_DIR filename in
  write_file path (JsonFile data) ;;
  sleep 500 ;;
  ret (Some path).

Fixpoint fetch_json_attempts (cve : vuln) (attempts : list Z)
  : M (option pystr) :=
  match attempts with
  | [] => ret None
  | _ :: rest =>
      except_RequestException (try_fetch_json cve)
        (sleep 2000 ;; fetch_json_attempts cve rest)
  end.

(** [fetch_and_save_cve_json] of [generate_vc_plugin.py] *)
Definition fetch_and_save_cve_json (cve : vuln) (retries : Z)
  : M (option pystr) :=
  fetch_json_attempts cve (py_range 1 (retries + 1)).

(** The body of [try] in [fetch_and_save_cve]. *)
Definition try_fetch (cve : vuln) : M (option pystr) :=
  response_text <- http_get E (v_link cve) ;;
  let description := page_description L response_text (v_summary cve) in
  let data := cve_data cve description in
  let filename := safe_filename (v_cve_id cve) ++ py ".json" in
  let path := path_join CVES_DIR filename in
  write_file path (JsonFile data) ;;
  sleep 700 ;;
  ret None.

Fixpoint fetch_attempts (cve : vuln) (attempts : list Z)
  : M (option pystr) :=
  match attempts with
  | [] => ret None
  | _ :: rest =>
      except_RequestException (try_fetch cve)
        (sleep 2000 ;; fetch_attempts cve rest)
  end.

(** [fetch_and_save_cve] of [fetch_openoffice_advisory.py] *)
Definition fetch_and_save_cve (cve : vuln) (retries : Z)
  : M (option pystr) :=
  fetch_attempts cve (py_range 1 (retries + 1)).

Definition write_xml (path : pystr) (root : xml) : M unit :=
  write_file path (XmlFile root).

(** [generate_cve_content]: the three writes follow the [try] block. *)
Definition generate_cve_content (cve_json_path : pystr) : M (option CVE) :=
  fun h =>
    match load_cve L E h cve_json_path with
    | None => (Ok None, h)
    | Some cve_obj =>
        (write_xml (path_join CVES_CONTENT_DIR (cve_id cve_obj ++ py ".xml"))
           (vulnerability_xml cve_obj) ;;
         write_xml (path_join CVES_CONTENT_DIR (cve_id cve_obj ++ py ".sol"))
           (solution_xml cve_obj) ;;
         t <- now E ;;
         write_xml (path_join CVES_CONTENT_DIR (cve_id cve_obj ++ py ".vck"))
           (plugin_entry_xml cve_obj t) ;;
         ret (Some cve_obj)) h
    end.

(** [generate_product_vck] *)
Definition generate_product_vck (all_cves : list CVE) : M unit :=
  t <- now E ;;
  write_xml product_path (product_xml (length all_cves) t).

(** [fetch_advisory_index] *)
Definition fetch_advisory_index : M pystr :=
  html_content <- http_get E BASE_URL ;;
  write_file (path_join RAW_DIR (py "openoffice_advisory.html"))
    (TextFile html_content) ;;
  ret html_content.

(** The body of the loop of [main] of [generate_vc_plugin.py]. *)
Definition process (validated_cves : list CVE) (cve : vuln) : M (list CVE) :=
  cve_json_path <- fetch_and_save_cve_json cve 3 ;;
  match cve_json_path with
  | Some path =>
      cve_obj <- generate_cve_content path ;;
      match cve_obj with
      | Some c => ret (validated_cves ++ [c])
      | None => ret validated_cves
      end
  | None => ret validated_cves
  end.

(** [main] of [generate_vc_plugin.py] *)
Definition main : M unit :=
  html <- fetch_advisory_index ;;
  vulns <- lift (parse_vulnerabilities L html) ;;
  validated_cves <- for_each process [] vulns ;;
  generate_product_vck validated_cves.

(** [ensure_directories]: the two calls of [os.makedirs]. *)
Definition ensure_directories : M unit :=
  fun h =>
    if writable h RAW_DIR
    then if writable h CVES_DIR then (Ok tt, h) else (Raise OSError, h)
    else (Raise OSError, h).

(** The body of the loop of [main] of [fetch_openoffice_advisory.py]. *)
Definition fetch_each : unit -> vuln -> M unit :=
  fun _ cve => _ <- fetch_and_save_cve cve 3 ;; ret tt.

(** [main] of [fetch_openoffice_advisory.py] *)
Definition advisory_main : M unit :=
  ensure_directories ;;
  html <- fetch_advisory_index ;;
  vulns <- lift (parse_vulnerabilities L html) ;;
  write_file summary_path (JsonFile (JArray (vuln_json <$> vulns))) ;;
  for_each fetch_each tt vulns.
End Programs.
End Disk.



(** ** Further inputs of the examples *)

(** An identifier written with KAWI digits (U+11F50, U+11F51), which
    are decimal digits from Unicode 15.0 on. *)
Definition kawi_id : pystr :=
  py "CVE-" ++ [0x11f50; 0x11f50; 0x11f50; 0x11f50] ++ py "-" ++ [0x11f51].

Definition kawi_data : json :=
  JObject (<[py "cve_id" := JString kawi_id]>
           (<[py "affected_version" := JString (py "1.0")]>
            (<[py "description" := JString (py "Heap overflow.")]> ∅))).

(** A file system on which every write goes through. *)
Definition every_write : history -> pystr -> bool := fun _ _ => true.







(** * Properties *)

#[local] Arguments isdecimal : simpl never.
#[local] Arguments isspace : simpl never.
#[local] Arguments safe_char : simpl never.
#[local] Arguments ascii_digit : simpl never.

(** ** Character classes *)

Lemma ascii_digit_isdecimal c : ascii_digit c = true -> isdecimal c = true.
Proof.
  unfold ascii_digit, in_range, isdecimal, Nd_blocks, ch.
  intros [H1 H2]%andb_prop. cbn [existsb fst snd].
  apply orb_true_intro; left.
  apply N.leb_le in H1, H2. cbn in H1, H2.
  apply andb_true_intro; split; [apply N.leb_le | apply N.ltb_lt]; lia.
Qed.

Lemma ascii_digit_safe c : ascii_digit c = true -> safe_char c = true.
Proof.
  unfold ascii_digit, safe_char. intros ->.
  rewrite !orb_true_r. reflexivity.
Qed.

Lemma safe_char_bound c : safe_char c = true -> 45 <= c <= 122.
Proof.
  unfold safe_char, in_range, ch. cbn [N_of_ascii N_of_digits N.add N.mul].
  rewrite !orb_true_iff, !andb_true_iff, !N.leb_le, !N.eqb_eq. lia.
Qed.

Lemma safe_char_not_space c : safe_char c = true -> isspace c = false.
Proof.
  intros Hs%safe_char_bound.
  destruct (isspace c) eqn:Hsp; [|reflexivity].
  unfold isspace in Hsp. apply existsb_exists in Hsp as (w & Hin & Hw).
  apply N.eqb_eq in Hw; subst w.
  unfold whitespace in Hin. cbn in Hin.
  repeat (destruct Hin as [<- | Hin]; [lia|]). destruct Hin.
Qed.

Lemma safe_char_not_slash c : safe_char c = true -> c <> ch "/".
Proof.
  intros Hs ->. vm_compute in Hs. discriminate.
Qed.

(** ** [strip] *)

Lemma lstrip_suffix p s :
  exists pre, s = pre ++ lstrip p s /\ forallb p pre = true.
Proof.
  induction s as [|c r IH]; [exists []; split; reflexivity|].
  cbn [lstrip]. destruct (p c) eqn:Hc.
  - destruct IH as (pre & Heq & Hpre). exists (c :: pre). split.
    + cbn. congruence.
    + cbn. rewrite Hc, Hpre. reflexivity.
  - exists []. split; reflexivity.
Qed.

Lemma lstrip_head p s c : head (lstrip p s) = Some c -> p c = false.
Proof.
  induction s as [|a r IH]; cbn [lstrip]; [discriminate|].
  destruct (p a) eqn:Ha; [exact IH|].
  cbn. intros [= ->]. exact Ha.
Qed.

Lemma lstrip_id p s :
  (forall c, head s = Some c -> p c = false) -> lstrip p s = s.
Proof.
  destruct s as [|c r]; [reflexivity|].
  intros H. cbn. rewrite (H c eq_refl). reflexivity.
Qed.

Lemma strip_split p s :
  exists pre post, s = pre ++ strip p s ++ post.
Proof.
  unfold strip, rstrip.
  destruct (lstrip_suffix p s) as (pre & Hs & _).
  destruct (lstrip_suffix p (reverse (lstrip p s))) as (post & Hr & _).
  exists pre, (reverse post).
  rewrite <- reverse_app, <- Hr, reverse_involutive. exact Hs.
Qed.

Lemma strip_head p s c : head (strip p s) = Some c -> p c = false.
Proof.
  unfold strip, rstrip.
  destruct (lstrip_suffix p (reverse (lstrip p s))) as (post & Hr & _).
  intros Hh.
  apply (lstrip_head p s).
  apply (f_equal reverse) in Hr.
  rewrite reverse_involutive, reverse_app in Hr. rewrite Hr.
  destruct (reverse (lstrip p (reverse (lstrip p s)))); [discriminate|].
  exact Hh.
Qed.

Lemma strip_last p s c : last (strip p s) = Some c -> p c = false.
Proof.
  unfold strip, rstrip. rewrite last_reverse. apply lstrip_head.
Qed.

Lemma strip_id p s :
  (forall c, head s = Some c -> p c = false) ->
  (forall c, last s = Some c -> p c = false) ->
  strip p s = s.
Proof.
  intros Hh Hl. unfold strip, rstrip.
  rewrite (lstrip_id p s Hh).
  rewrite lstrip_id; [apply reverse_involutive|].
  intros c. rewrite head_reverse. apply Hl.
Qed.

(** ** [safe_filename] *)

Lemma replace_char_id old new s :
  Forall (fun c => c <> old) s -> replace_char old new s = s.
Proof.
  unfold replace_char. induction 1 as [|c r Hc _ IH]; [reflexivity|].
  cbn. rewrite IH. apply N.eqb_neq in Hc. rewrite Hc. reflexivity.
Qed.

Lemma sub_space_runs_id repl b s :
  Forall (fun c => isspace c = false) s -> sub_space_runs repl b s = s.
Proof.
  intros H. revert b. induction H as [|c r Hc _ IH]; intros b; [reflexivity|].
  cbn [sub_space_runs]. rewrite Hc, IH. reflexivity.
Qed.

Lemma filter_id {A} (f : A -> bool) l :
  Forall (fun x => f x = true) l -> List.filter f l = l.
Proof.
  induction 1 as [|x r Hx _ IH]; [reflexivity|].
  cbn. rewrite Hx, IH. reflexivity.
Qed.

(** A name made of safe characters that neither starts nor ends with an
    underscore is left as it is. *)
Lemma safe_filename_id s :
  Forall (fun c => safe_char c = true) s ->
  (forall c, head s = Some c -> c <> ch "_") ->
  (forall c, last s = Some c -> c <> ch "_") ->
  safe_filename s = s.
Proof.
  intros Hs Hh Hl. unfold safe_filename.
  rewrite replace_char_id
    by (eapply Forall_impl; [exact Hs | apply safe_char_not_slash]).
  rewrite sub_space_runs_id
    by (eapply Forall_impl; [exact Hs | apply safe_char_not_space]).
  rewrite filter_id by exact Hs.
  apply strip_id; intros c Hc; apply N.eqb_neq; intros Heq; subst c.
  - exact (Hh _ Hc eq_refl).
  - exact (Hl _ Hc eq_refl).
Qed.

Lemma safe_filename_safe name :
  Forall (fun c => safe_char c = true) (safe_filename name).
Proof.
  unfold safe_filename.
  set (x := List.filter safe_char _).
  assert (Hx : Forall (fun c => safe_char c = true) x).
  { apply Forall_forall. intros c Hc.
    apply list_elem_of_In, filter_In in Hc. tauto. }
  destruct (strip_split (N.eqb (ch "_")) x) as (pre & post & Heq).
  rewrite Heq in Hx.
  apply Forall_app in Hx as [_ Hx]. apply Forall_app in Hx as [Hx _].
  exact Hx.
Qed.

(** ** The pattern [CVE-\d{4}-\d+] *)

Lemma match_literal_app lit r : match_literal lit (lit ++ r) = Some r.
Proof.
  induction lit as [|a lit IH]; [destruct r; reflexivity|].
  cbn. rewrite N.eqb_refl. exact IH.
Qed.

Lemma match_literal_Some lit s r : match_literal lit s = Some r -> s = lit ++ r.
Proof.
  revert s. induction lit as [|a lit IH]; intros s.
  - destruct s; cbn; congruence.
  - destruct s as [|b s]; cbn; [discriminate|].
    destruct (N.eqb_spec a b) as [->|]; [|discriminate].
    intros H%IH. congruence.
Qed.

Lemma digits_run_spec s :
  s = fst (digits_run s) ++ snd (digits_run s)
  /\ forallb isdecimal (fst (digits_run s)) = true
  /\ (forall c, head (snd (digits_run s)) = Some c -> isdecimal c = false).
Proof.
  induction s as [|c r (IH1 & IH2 & IH3)]; cbn [digits_run].
  - repeat split. intros c; discriminate.
  - destruct (isdecimal c) eqn:Hc.
    + destruct (digits_run r) as [d rest]. cbn in *.
      rewrite Hc. repeat split; [congruence | assumption | assumption].
    + cbn. repeat split. intros c' [= ->]. exact Hc.
Qed.

Lemma digits_run_app d x :
  forallb isdecimal d = true ->
  digits_run (d ++ x) = (d ++ fst (digits_run x), snd (digits_run x)).
Proof.
  induction d as [|c d IH]; cbn [forallb app].
  - intros _. destruct (digits_run x); reflexivity.
  - intros [Hc Hd]%andb_prop. cbn [digits_run]. rewrite Hc, (IH Hd). reflexivity.
Qed.

Lemma digits_run_stop x :
  (forall c, head x = Some c -> isdecimal c = false) -> digits_run x = ([], x).
Proof.
  destruct x as [|c r]; [reflexivity|].
  intros H. cbn. rewrite (H c eq_refl). reflexivity.
Qed.

(** An attempt on a text that starts with the shape succeeds, and takes
    all the digits that follow. *)
Lemma match_cve_shape year num x :
  length year = 4%nat -> forallb isdecimal year = true ->
  num <> [] -> forallb isdecimal num = true ->
  match_cve (py "CVE-" ++ year ++ py "-" ++ num ++ x)
  = Some (py "CVE-" ++ year ++ py "-" ++ num ++ fst (digits_run x),
          snd (digits_run x)).
Proof.
  intros Hlen Hyear Hne Hnum. unfold match_cve.
  rewrite match_literal_app.
  rewrite (take_app_length' year _ 4) by (symmetry; exact Hlen).
  cbv zeta. rewrite Hlen, Hyear. cbn [Nat.eqb andb].
  replace (drop 4 (year ++ py "-" ++ num ++ x)) with (py "-" ++ num ++ x)
    by (rewrite <- Hlen, drop_app_length; reflexivity).
  rewrite match_literal_app, (digits_run_app _ _ Hnum).
  destruct num as [|c num]; [contradiction|]. reflexivity.
Qed.

Lemma match_cve_Some s m rest :
  match_cve s = Some (m, rest) ->
  s = m ++ rest /\ CVE_shaped isdecimal m
  /\ (forall c, head rest = Some c -> isdecimal c = false).
Proof.
  unfold match_cve.
  destruct (match_literal (py "CVE-") s) as [s1|] eqn:H1; [|discriminate].
  apply match_literal_Some in H1. cbv zeta.
  destruct (Nat.eqb_spec (length (take 4 s1)) 4) as [Hlen|]; [|discriminate].
  destruct (forallb isdecimal (take 4 s1)) eqn:Hyear; [|discriminate].
  cbn [andb].
  destruct (match_literal (py "-") (drop 4 s1)) as [s2|] eqn:H2; [|discriminate].
  apply match_literal_Some in H2.
  destruct (digits_run_spec s2) as (Hs2 & Hd & Hstop).
  destruct (digits_run s2) as [num rest']. cbn [fst snd] in *.
  destruct num as [|c num]; [discriminate|].
  intros Heq.
  assert (m = py "CVE-" ++ take 4 s1 ++ py "-" ++ c :: num /\ rest = rest')
    as [-> ->] by (split; congruence).
  split; [|split].
  - rewrite H1, <- (take_drop 4 s1) at 1. rewrite H2, Hs2.
    rewrite <- !app_assoc. reflexivity.
  - exists (take 4 s1), (c :: num). repeat split; try assumption. discriminate.
  - exact Hstop.
Qed.

Lemma match_cve_None s : match_cve s = None -> ~ match_starts s.
Proof.
  intros Hn (m & rest & -> & year & num & -> & Hlen & Hyear & Hne & Hnum).
  rewrite <- !app_assoc in Hn.
  rewrite (match_cve_shape year num rest Hlen Hyear Hne Hnum) in Hn.
  discriminate.
Qed.

Lemma match_cve_longest m rest :
  CVE_shaped isdecimal m ->
  (forall c, head rest = Some c -> isdecimal c = false) ->
  match_cve (m ++ rest) = Some (m, rest).
Proof.
  intros (year & num & -> & Hlen & Hyear & Hne & Hnum) Hstop.
  rewrite <- !app_assoc.
  rewrite (match_cve_shape year num rest Hlen Hyear Hne Hnum).
  rewrite (digits_run_stop rest Hstop). cbn [fst snd].
  rewrite app_nil_r. reflexivity.
Qed.

(** ** [extract_cve_ids] *)

Lemma findall_cve_skip k s : findall_cve k s = findall_cve 0 (drop k s).
Proof.
  revert k. induction s as [|c r IH]; intros [|k]; try reflexivity.
  cbn [findall_cve drop]. apply IH.
Qed.

Lemma extract_cve_ids_pass c r :
  match_cve (c :: r) = None -> extract_cve_ids (c :: r) = extract_cve_ids r.
Proof.
  unfold extract_cve_ids. cbn [findall_cve]. intros ->. reflexivity.
Qed.

Lemma extract_cve_ids_take s m rest :
  match_cve s = Some (m, rest) ->
  extract_cve_ids s = m :: extract_cve_ids rest.
Proof.
  intros Hm. destruct (match_cve_Some _ _ _ Hm) as (Hs & (y & n & Hshape & _) & _).
  unfold extract_cve_ids.
  destruct s as [|c r].
  { rewrite Hshape in Hs. discriminate. }
  cbn [findall_cve]. rewrite Hm. f_equal.
  rewrite findall_cve_skip. f_equal.
  destruct m as [|c' m']; [rewrite Hshape in *; discriminate|].
  cbn in Hs. injection Hs as _ ->.
  cbn [length]. replace (S (length m') - 1)%nat with (length m') by lia.
  apply drop_app_length.
Qed.

Lemma extract_cve_ids_matches text : matches_of text (extract_cve_ids text).
Proof.
  remember (length text) as n eqn:Hn. revert text Hn.
  induction n as [n IH] using lt_wf_ind. intros text ->.
  destruct text as [|c r]; [constructor|].
  destruct (match_cve (c :: r)) as [[m rest]|] eqn:Hm.
  - rewrite (extract_cve_ids_take _ _ _ Hm).
    destruct (match_cve_Some _ _ _ Hm) as (Hs & Hshape & Hstop).
    rewrite Hs. constructor; [assumption..|].
    apply (IH (length rest)); [|reflexivity].
    destruct Hshape as (y & k & -> & _).
    rewrite Hs. rewrite !length_app. cbn. lia.
  - rewrite (extract_cve_ids_pass _ _ Hm). constructor.
    + apply match_cve_None, Hm.
    + apply (IH (length r)); [cbn; lia | reflexivity].
Qed.

Lemma matches_of_unique text ms :
  matches_of text ms -> ms = extract_cve_ids text.
Proof.
  induction 1 as [|c s ms Hno _ IH|m rest ms Hshape Hstop _ IH].
  - reflexivity.
  - destruct (match_cve (c :: s)) as [[m rest]|] eqn:Hm.
    + exfalso. apply Hno.
      destruct (match_cve_Some _ _ _ Hm) as (Hs & Hshape & _).
      exists m, rest. split; assumption.
    + rewrite (extract_cve_ids_pass _ _ Hm). exact IH.
  - rewrite (extract_cve_ids_take _ _ _ (match_cve_longest m rest Hshape Hstop)).
    congruence.
Qed.

Lemma matches_of_shaped text ms :
  matches_of text ms -> Forall (CVE_shaped isdecimal) ms.
Proof. induction 1; auto. Qed.

Lemma matches_of_weave text ms :
  matches_of text ms ->
  exists gaps, length gaps = S (length ms) /\ text = weave gaps ms.
Proof.
  induction 1 as [|c s ms _ _ (gaps & Hl & ->)|m rest ms _ _ _ (gaps & Hl & ->)].
  - exists [[]]. split; reflexivity.
  - destruct gaps as [|g gaps]; [discriminate|].
    exists ((c :: g) :: gaps). split; [exact Hl|].
    destruct ms; reflexivity.
  - exists ([] :: gaps). split; [cbn; congruence | reflexivity].
Qed.

(** C7: [extract_cve_ids] returns the non-overlapping matches of
    [CVE-\d{4}-\d+] in the text, from left to right: its result is the
    one list [matches_of] describes, every entry has the shape, the
    entries lie in the text one after the other in this order
    (duplicates included), and the empty text has none.  The function
    is total and has no state. *)
Theorem extract_cve_ids_findall (text : pystr) :
  matches_of text (extract_cve_ids text)
  /\ (forall ms, matches_of text ms -> ms = extract_cve_ids text)
  /\ Forall (CVE_shaped isdecimal) (extract_cve_ids text)
  /\ (exists gaps,
        length gaps = S (length (extract_cve_ids text))
        /\ text = weave gaps (extract_cve_ids text))
  /\ extract_cve_ids [] = [].
Proof.
  pose proof (extract_cve_ids_matches text) as H.
  split; [exact H|]. split; [apply matches_of_unique|].
  split; [exact (matches_of_shaped _ _ H)|].
  split; [exact (matches_of_weave _ _ H) | reflexivity].
Qed.

(** ** The pattern of the field [cve_id] *)

Lemma anchored_pattern_shaped digit s :
  anchored_pattern digit s = true <-> CVE_shaped digit s.
Proof.
  unfold anchored_pattern. split.
  - destruct (match_literal (py "CVE-") s) as [s1|] eqn:H1; [|discriminate].
    apply match_literal_Some in H1.
    intros [[Hlen Hyear]%andb_prop Hrest]%andb_prop.
    destruct (drop 4 s1) as [|c num] eqn:Hdrop; [discriminate|].
    apply andb_prop in Hrest as [[Hc Hne]%andb_prop Hnum].
    apply N.eqb_eq in Hc. subst c.
    exists (take 4 s1), num. repeat split; try assumption.
    + rewrite H1. f_equal. rewrite <- (take_drop 4 s1) at 1.
      rewrite Hdrop. reflexivity.
    + apply Nat.eqb_eq, Hlen.
    + intros ->. discriminate.
  - intros (year & num & -> & Hlen & Hyear & Hne & Hnum).
    rewrite match_literal_app.
    rewrite (take_app_length' year _ 4) by (symmetry; exact Hlen).
    rewrite Hlen, Hyear. cbn [Nat.eqb andb].
    replace (drop 4 (year ++ py "-" ++ num)) with (ch "-" :: num)
      by (rewrite <- Hlen, drop_app_length; reflexivity).
    rewrite N.eqb_refl, Hnum.
    destruct num; [contradiction | reflexivity].
Qed.

Lemma cve_id_pattern_shaped s :
  cve_id_pattern s = true <-> CVE_shaped isdecimal s.
Proof. apply (anchored_pattern_shaped isdecimal). Qed.

Lemma cve_id_constraint_shaped L s :
  cve_id_constraint L s = true <-> CVE_shaped (pydantic_digit L) s.
Proof. apply anchored_pattern_shaped. Qed.

(** What matches with the digits of Unicode 14.0 meets the constraint
    of the validator, whatever further digits its engine knows. *)
Lemma cve_id_pattern_constraint L s :
  cve_id_pattern s = true -> cve_id_constraint L s = true.
Proof.
  rewrite cve_id_pattern_shaped, cve_id_constraint_shaped.
  intros (year & num & -> & Hlen & Hyear & Hne & Hnum).
  assert (Hd : forall l, forallb isdecimal l = true ->
                         forallb (pydantic_digit L) l = true).
  { intros l Hl. apply forallb_forall. intros c Hc.
    unfold pydantic_digit. rewrite (proj1 (forallb_forall _ _) Hl c Hc).
    reflexivity. }
  exists year, num. repeat split; auto.
Qed.

Lemma ascii_shaped_decimal m :
  CVE_shaped ascii_digit m -> CVE_shaped isdecimal m.
Proof.
  intros (year & num & -> & Hlen & Hyear & Hne & Hnum).
  exists year, num. repeat split; try assumption.
  - apply forallb_forall. intros c Hc. apply ascii_digit_isdecimal.
    exact (proj1 (forallb_forall _ _) Hyear c Hc).
  - apply forallb_forall. intros c Hc. apply ascii_digit_isdecimal.
    exact (proj1 (forallb_forall _ _) Hnum c Hc).
Qed.

Lemma forallb_Forall_safe s :
  forallb ascii_digit s = true -> Forall (fun c => safe_char c = true) s.
Proof.
  intros H. apply Forall_forall. intros c Hc%list_elem_of_In.
  apply ascii_digit_safe. exact (proj1 (forallb_forall _ _) H c Hc).
Qed.

(** An identifier written with the digits [0-9] is its own file name. *)
Lemma safe_filename_ascii_id year num :
  length year = 4%nat -> forallb ascii_digit year = true ->
  num <> [] -> forallb ascii_digit num = true ->
  safe_filename (py "CVE-" ++ year ++ py "-" ++ num)
  = py "CVE-" ++ year ++ py "-" ++ num.
Proof.
  intros Hlen Hyear Hne Hnum. apply safe_filename_id.
  - apply Forall_app. split; [repeat constructor|].
    apply Forall_app. split; [apply forallb_Forall_safe, Hyear|].
    apply Forall_app. split; [repeat constructor|].
    apply forallb_Forall_safe, Hnum.
  - intros c [= <-]. discriminate.
  - intros c. rewrite !app_assoc, last_app.
    destruct (last num) as [d|] eqn:Hlast.
    + intros [= <-]. intros ->.
      apply last_Some_elem_of, list_elem_of_In in Hlast.
      pose proof (proj1 (forallb_forall _ _) Hnum _ Hlast) as Hd.
      vm_compute in Hd. discriminate.
    + apply last_None in Hlast. contradiction.
Qed.

(** ** The detail fetcher *)

Lemma failed_attempts_S url n h :
  failed_attempts url (S n) ++ h
  = failed_attempts url n ++ Sleep 2000 :: Get url :: h.
Proof.
  unfold failed_attempts. induction n as [|n IH]; [reflexivity|].
  change (replicate (S (S n)) ?x) with (x :: replicate (S n) x).
  change (replicate (S n) ?x) with (x :: replicate n x) at 2.
  cbn [concat]. rewrite <- !app_assoc, IH. reflexivity.
Qed.

Section Fetcher.
Variable L : library.
Variable E : environment.
Variable cve : vuln.

Lemma try_fetch_json_ok h body :
  requests_get E h (v_link cve) = Some body ->
  try_fetch_json L E cve h
  = (Ok (Some (path_join CVES_DIR (safe_filename (v_cve_id cve) ++ py ".json"))),
     Sleep 500 :: saved_record L cve body :: Get (v_link cve) :: h).
Proof.
  intros H. unfold try_fetch_json, bind, http_get. rewrite H. reflexivity.
Qed.

Lemma try_fetch_json_fail h :
  requests_get E h (v_link cve) = None ->
  try_fetch_json L E cve h = (Raise RequestException, Get (v_link cve) :: h).
Proof.
  intros H. unfold try_fetch_json, bind, http_get. rewrite H. reflexivity.
Qed.

Lemma try_fetch_ok h body :
  requests_get E h (v_link cve) = Some body ->
  try_fetch L E cve h
  = (Ok None, Sleep 700 :: saved_record L cve body :: Get (v_link cve) :: h).
Proof.
  intros H. unfold try_fetch, bind, http_get. rewrite H. reflexivity.
Qed.

Lemma try_fetch_fail h :
  requests_get E h (v_link cve) = None ->
  try_fetch L E cve h = (Raise RequestException, Get (v_link cve) :: h).
Proof.
  intros H. unfold try_fetch, bind, http_get. rewrite H. reflexivity.
Qed.

Hypothesis always_fails : forall h, requests_get E h (v_link cve) = None.

Lemma fetch_json_attempts_fail attempts h :
  fetch_json_attempts L E cve attempts h
  = (Ok None, failed_attempts (v_link cve) (length attempts) ++ h).
Proof.
  revert h. induction attempts as [|a rest IH]; intros h; [reflexivity|].
  cbn [fetch_json_attempts length]. unfold except_RequestException.
  rewrite (try_fetch_json_fail h (always_fails h)).
  unfold bind, sleep, emit. rewrite IH, failed_attempts_S. reflexivity.
Qed.

Lemma fetch_attempts_fail attempts h :
  fetch_attempts L E cve attempts h
  = (Ok None, failed_attempts (v_link cve) (length attempts) ++ h).
Proof.
  revert h. induction attempts as [|a rest IH]; intros h; [reflexivity|].
  cbn [fetch_attempts length]. unfold except_RequestException.
  rewrite (try_fetch_fail h (always_fails h)).
  unfold bind, sleep, emit. rewrite IH, failed_attempts_S. reflexivity.
Qed.
End Fetcher.

Lemma length_py_range (retries : Z) :
  (0 <= retries)%Z -> length (py_range 1 (retries + 1)) = Z.to_nat retries.
Proof.
  intros H. unfold py_range. rewrite length_fmap, length_seq. f_equal. lia.
Qed.

Lemma py_range_first (retries : Z) :
  (1 <= retries)%Z -> exists rest, py_range 1 (retries + 1) = 1%Z :: rest.
Proof.
  intros H. unfold py_range.
  replace (Z.to_nat (retries + 1 - 1)) with (S (Z.to_nat (retries - 1))) by lia.
  cbn [seq fmap list_fmap]. eexists. reflexivity.
Qed.

Lemma requests_made_failed url n h :
  requests_made (failed_attempts url n ++ h) = (n + requests_made h)%nat.
Proof.
  unfold requests_made, failed_attempts. induction n as [|n IH]; [reflexivity|].
  cbn [replicate concat app List.filter length]. cbn. rewrite IH. reflexivity.
Qed.

Lemma written_paths_failed url n h :
  written_paths (failed_attempts url n ++ h) = written_paths h.
Proof.
  unfold written_paths, failed_attempts. induction n as [|n IH]; [reflexivity|].
  cbn [replicate concat app]. cbn. exact IH.
Qed.

(** C1 (amended): with [0 <= retries], a reference whose request fails
    at every attempt costs exactly [retries] requests, each followed by
    the two-second pause, after which both fetchers return [None] and
    have written nothing.  When the first attempt succeeds (so
    [1 <= retries]) there is one request and one record written;
    [fetch_and_save_cve_json] returns the path of the record, while
    [fetch_and_save_cve] returns [None] here as well. *)
Theorem detail_fetcher_attempts
    (L : library) (E : environment) (cve : vuln) (retries : Z) (h : history) :
  (0 <= retries)%Z ->
  ((forall h', requests_get E h' (v_link cve) = None) ->
   let failed := failed_attempts (v_link cve) (Z.to_nat retries) ++ h in
   fetch_and_save_cve_json L E cve retries h = (Ok None, failed)
   /\ fetch_and_save_cve L E cve retries h = (Ok None, failed)
   /\ Z.of_nat (requests_made failed) = (retries + Z.of_nat (requests_made h))%Z
   /\ written_paths failed = written_paths h)
  /\ (forall body,
        (1 <= retries)%Z ->
        requests_get E h (v_link cve) = Some body ->
        fetch_and_save_cve_json L E cve retries h
        = (Ok (Some (path_join CVES_DIR
                       (safe_filename (v_cve_id cve) ++ py ".json"))),
           Sleep 500 :: saved_record L cve body :: Get (v_link cve) :: h)
        /\ fetch_and_save_cve L E cve retries h
           = (Ok None,
              Sleep 700 :: saved_record L cve body :: Get (v_link cve) :: h)).
Proof.
  intros Hr. split.
  - intros Hfail. cbv zeta.
    unfold fetch_and_save_cve_json, fetch_and_save_cve.
    rewrite (fetch_json_attempts_fail L E cve Hfail).
    rewrite (fetch_attempts_fail L E cve Hfail).
    rewrite (length_py_range retries Hr).
    rewrite requests_made_failed, written_paths_failed.
    repeat split. lia.
  - intros body H1 Hok.
    unfold fetch_and_save_cve_json, fetch_and_save_cve.
    destruct (py_range_first retries H1) as (rest & ->).
    cbn [fetch_json_attempts fetch_attempts]. unfold except_RequestException.
    rewrite (try_fetch_json_ok L E cve h body Hok).
    rewrite (try_fetch_ok L E cve h body Hok).
    split; reflexivity.
Qed.

(** The two scenarios at a concrete reference with three attempts. *)
Lemma detail_fetcher_attempts_witness :
  fetch_and_save_cve_json (example_library empty_paragraph_page) server_down
    example_vuln 3 []
  = (Ok None,
     [ Sleep 2000; Get (v_link example_vuln);
       Sleep 2000; Get (v_link example_vuln);
       Sleep 2000; Get (v_link example_vuln) ])
  /\ fst (fetch_and_save_cve_json (example_library empty_paragraph_page)
            (server_up []) example_vuln 3 [])
     = Ok (Some (py "data/parsed/cves/CVE-2021-9999.json")).
Proof.
  split.
  - apply (detail_fetcher_attempts (example_library empty_paragraph_page)
             server_down example_vuln 3 []); [lia | reflexivity].
  - rewrite (proj1 (proj2 (detail_fetcher_attempts
               (example_library empty_paragraph_page) (server_up [])
               example_vuln 3 [] ltac:(lia)) [] ltac:(lia) eq_refl)).
    vm_compute. reflexivity.
Defined.

(** C1, as stated, fails for [fetch_and_save_cve]: on a first attempt
    that succeeds it makes its one request and writes the record, and
    returns [None], not the path of the record. *)
Lemma fetch_and_save_cve_returns_no_path :
  fst (fetch_and_save_cve (example_library empty_paragraph_page)
         (server_up []) example_vuln 3 []) = Ok None
  /\ requests_made
       (snd (fetch_and_save_cve (example_library empty_paragraph_page)
               (server_up []) example_vuln 3 [])) = 1%nat
  /\ written_paths
       (snd (fetch_and_save_cve (example_library empty_paragraph_page)
               (server_up []) example_vuln 3 []))
     = [py "data/parsed/cves/CVE-2021-9999.json"].
Proof. vm_compute. repeat split. Qed.

(** ** The description of a record *)

Lemma join_empty sep parts :
  sep <> [] -> join sep parts = [] <-> parts = [] \/ parts = [[]].
Proof.
  intros Hsep. destruct parts as [|p [|q rest]]; cbn [join].
  - split; [left; reflexivity | reflexivity].
  - split; [intros ->; right; reflexivity | intros [|[= ->]]; [discriminate | reflexivity]].
  - split.
    + intros [_ [H _]%app_eq_nil]%app_eq_nil. contradiction.
    + intros [|]; discriminate.
Qed.

Lemma page_description_cases L body summary :
  let texts := get_text_strip <$> select_content_p (BeautifulSoup L body) in
  (join (py " ") texts <> [] ->
   page_description L body summary = join (py " ") texts)
  /\ (join (py " ") texts = [] -> page_description L body summary = summary).
Proof.
  cbv zeta. unfold page_description.
  destruct (join (py " ") _) as [|c r]; cbn [nonempty]; split; congruence.
Qed.

Lemma cve_data_description cve d :
  exists data, cve_data cve d = JObject data
               /\ data !! py "description" = Some (JString d).
Proof.
  eexists. split; [reflexivity|].
  rewrite lookup_insert_ne by discriminate.
  rewrite lookup_insert_ne by discriminate.
  apply lookup_insert_eq.
Qed.

(** C2, as stated, fails on a page whose content region holds a single
    empty paragraph: the page yields a paragraph, and the description
    is the summary all the same. *)
Lemma empty_paragraph_falls_back :
  length (select_content_p
            (BeautifulSoup (example_library empty_paragraph_page)
               empty_paragraph_text)) = 1%nat
  /\ snd (fetch_and_save_cve_json (example_library empty_paragraph_page)
            (server_up empty_paragraph_text) example_vuln 3 [])
     = [ Sleep 500;
         WriteFile (py "data/parsed/cves/CVE-2021-9999.json")
           (JsonFile (cve_data example_vuln (v_summary example_vuln)));
         Get (v_link example_vuln) ].
Proof. split; vm_compute; reflexivity. Qed.

(** ** The record validator *)

Lemma validate_str_get d key default s :
  validate_str (dict_get d key (JString default)) = Some s
  <-> (d !! key = None /\ s = default) \/ d !! key = Some (JString s).
Proof.
  unfold dict_get. destruct (d !! key) as [v|]; cbn.
  - split.
    + destruct v; cbn; try discriminate. intros [= ->]. right. reflexivity.
    + intros [[? _]|[= ->]]; [discriminate | reflexivity].
  - split.
    + intros [= ->]. left. split; reflexivity.
    + intros [[_ ->]|?]; [reflexivity | discriminate].
Qed.

Lemma validate_optional_url_get L d key u :
  validate_optional_url L (dict_get d key JNull) = Some u
  <-> ((d !! key = None \/ d !! key = Some JNull) /\ u = None)
      \/ (exists s url, d !! key = Some (JString s)
                        /\ HttpUrl L s = Some url /\ u = Some url).
Proof.
  unfold dict_get. destruct (d !! key) as [v|]; cbn.
  - destruct v; cbn; try (split; [discriminate | intros [[[|] _]|(? & ? & ? & _)]; discriminate]).
    + split.
      * intros [= <-]. left. split; [right|]; reflexivity.
      * intros [[_ ->]|(? & ? & ? & _)]; [reflexivity | discriminate].
    + destruct (HttpUrl L s) as [url|] eqn:Hurl.
      * split.
        -- intros [= <-]. right. exists s, url. repeat split. exact Hurl.
        -- intros [[[|] _]|(s' & url' & [= <-] & Hu & ->)]; try discriminate.
           congruence.
      * split; [discriminate|].
        intros [[[|] _]|(s' & url' & [= <-] & Hu & _)]; try discriminate.
        congruence.
  - split.
    + intros [= <-]. left. split; [left|]; reflexivity.
    + intros [[_ ->]|(? & ? & ? & _)]; [reflexivity | discriminate].
Qed.

Lemma CVE_init_Some L id version descr url c :
  CVE_init L id version descr url = Some c
  <-> validate_str id = Some (cve_id c)
      /\ validate_str version = Some (affected_version c)
      /\ validate_str descr = Some (description c)
      /\ validate_optional_url L url = Some (source_url c)
      /\ cve_id_constraint L (cve_id c) = true.
Proof.
  unfold CVE_init. split.
  - destruct (validate_str id) as [i|]; [|discriminate].
    destruct (validate_str version) as [v|]; [|discriminate].
    destruct (validate_str descr) as [de|]; [|discriminate].
    destruct (validate_optional_url L url) as [u|]; [|discriminate].
    destruct (cve_id_constraint L i) eqn:Hp; [|discriminate].
    intros [= <-]. cbn. auto.
  - destruct c as [i v de u]. cbn. intros (-> & -> & -> & -> & ->). reflexivity.
Qed.

Lemma unknown_is_no_identifier L : cve_id_constraint L (py "UNKNOWN") = false.
Proof. reflexivity. Qed.

(** What an accepted record holds. *)
Lemma cve_of_data_Some L data c :
  cve_of_data L data = Some c
  <-> exists d,
        data = JObject d
        /\ d !! py "cve_id" = Some (JString (cve_id c))
        /\ cve_id_constraint L (cve_id c) = true
        /\ ((d !! py "affected_version" = None
             /\ affected_version c = py "UNKNOWN")
            \/ d !! py "affected_version" = Some (JString (affected_version c)))
        /\ ((d !! py "description" = None
             /\ description c = py "No description available")
            \/ d !! py "description" = Some (JString (description c)))
        /\ (((d !! py "source_url" = None \/ d !! py "source_url" = Some JNull)
             /\ source_url c = None)
            \/ (exists s url, d !! py "source_url" = Some (JString s)
                              /\ HttpUrl L s = Some url
                              /\ source_url c = Some url)).
Proof.
  destruct data as [| | | |?|d];
    try (split; [discriminate | intros (? & ? & _); discriminate]).
  cbn [cve_of_data]. rewrite CVE_init_Some.
  rewrite !validate_str_get, validate_optional_url_get.
  split.
  - intros ([[_ Hid]|Hid] & Hv & Hd & Hu & Hp).
    + rewrite Hid, unknown_is_no_identifier in Hp. discriminate.
    + exists d. repeat split; assumption.
  - intros (d' & [= <-] & Hid & Hp & Hv & Hd & Hu).
    repeat split; try assumption. right. exact Hid.
Qed.

Lemma cve_of_data_acceptable L data :
  is_Some (cve_of_data L data) <-> acceptable L data.
Proof.
  split.
  - intros [c Hc]. apply cve_of_data_Some in Hc
      as (d & -> & Hid & Hp & Hv & Hd & Hu).
    exists d. split; [reflexivity|]. split; [|split; [|split]].
    + exists (cve_id c). split; [exact Hid|]. apply cve_id_constraint_shaped, Hp.
    + destruct Hv as [[? _]|?]; [left | right; eexists]; eassumption.
    + destruct Hd as [[? _]|?]; [left | right; eexists]; eassumption.
    + destruct Hu as [[[|] _]|(s & url & ? & ? & _)]; [auto..|].
      right; right. exists s, url. split; assumption.
  - intros (d & -> & (id & Hid & Hshape) & Hv & Hd & Hu).
    assert (exists v, (d !! py "affected_version" = None /\ v = py "UNKNOWN")
                      \/ d !! py "affected_version" = Some (JString v))
      as [v Hv'].
    { destruct Hv as [?|[s ?]]; eexists; [left; split; [eassumption|reflexivity] | right; eassumption]. }
    assert (exists de, (d !! py "description" = None
                        /\ de = py "No description available")
                       \/ d !! py "description" = Some (JString de))
      as [de Hd'].
    { destruct Hd as [?|[s ?]]; eexists; [left; split; [eassumption|reflexivity] | right; eassumption]. }
    assert (exists u, ((d !! py "source_url" = None
                        \/ d !! py "source_url" = Some JNull) /\ u = None)
                      \/ (exists s url, d !! py "source_url" = Some (JString s)
                                        /\ HttpUrl L s = Some url
                                        /\ u = Some url))
      as [u Hu'].
    { destruct Hu as [?|[?|(s & url & ? & ?)]].
      - exists None. left. split; [left; assumption | reflexivity].
      - exists None. left. split; [right; assumption | reflexivity].
      - exists (Some url). right. exists s, url. repeat split; assumption. }
    exists {| cve_id := id; affected_version := v; description := de;
              source_url := u |}.
    apply cve_of_data_Some. exists d. cbn.
    repeat split; try assumption. apply cve_id_constraint_shaped, Hshape.
Qed.

(** ** The bulletin parser *)

Lemma for_append_concat {A B} (body : A -> result (list B)) l groups :
  Forall2 (fun x g => body x = Ok g) l groups ->
  for_append body l = Ok (concat groups).
Proof.
  induction 1 as [|x g l groups Hx _ IH]; [reflexivity|].
  cbn [for_append concat]. rewrite Hx, IH. reflexivity.
Qed.

Lemma for_append_Ok {A B} (body : A -> result (list B)) l vs :
  for_append body l = Ok vs
  <-> exists groups,
        Forall2 (fun x g => body x = Ok g) l groups /\ vs = concat groups.
Proof.
  split.
  - revert vs. induction l as [|x rest IH]; intros vs; cbn [for_append].
    + intros [= <-]. exists []. split; [constructor | reflexivity].
    + destruct (body x) as [g|e] eqn:Hx; cbn [rbind]; [|discriminate].
      destruct (for_append body rest) as [zs|e]; cbn [rbind]; [|discriminate].
      destruct (IH zs eq_refl) as (groups & Hf & ->).
      intros [= <-]. exists (g :: groups).
      split; [constructor; assumption | reflexivity].
  - intros (groups & Hf & ->). apply for_append_concat, Hf.
Qed.

Lemma for_append_Raise {A B} (body : A -> result (list B)) l e :
  for_append body l = Raise e -> exists x, In x l /\ body x = Raise e.
Proof.
  induction l as [|x rest IH]; cbn [for_append]; [discriminate|].
  destruct (body x) as [g|e'] eqn:Hx; cbn [rbind].
  - destruct (for_append body rest) as [zs|e'']; cbn [rbind]; [discriminate|].
    intros [= ->]. destruct (IH eq_refl) as (y & Hy & He).
    exists y. split; [right; exact Hy | exact He].
  - intros [= ->]. exists x. split; [left; reflexivity | exact Hx].
Qed.

Section ParserFacts.
Variable L : library.

(** An item is passed over when it has no link, or when its first link
    has no target or an empty one. *)
Lemma parse_item_skips version li :
  find (py "a") li = None
  \/ (exists a, find (py "a") li = Some a
                /\ (tag_get (py "href") a = None
                    \/ tag_get (py "href") a = Some [])) ->
  parse_item L version li = Ok [].
Proof.
  unfold parse_item. intros [->|(a & -> & [->| ->])]; reflexivity.
Qed.

(** What an item contributes otherwise. *)
Lemma parse_item_link version li a c href :
  find (py "a") li = Some a ->
  tag_get (py "href") a = Some (c :: href) ->
  parse_item L version li
  = rbind (urljoin L BASE_URL (c :: href)) (fun cve_url =>
      Ok ((fun id => {| v_cve_id := id; v_version := version;
                        v_summary := get_text_strip li; v_link := cve_url |})
          <$> extract_cve_ids (get_text_strip a))).
Proof.
  unfold parse_item, tag_getitem. intros -> ->. reflexivity.
Qed.

Lemma parse_item_Ok version li refs :
  parse_item L version li = Ok refs ->
  (refs = []
   /\ (find (py "a") li = None
       \/ exists a, find (py "a") li = Some a
                    /\ (tag_get (py "href") a = None
                        \/ tag_get (py "href") a = Some [])))
  \/ (exists a href url,
        find (py "a") li = Some a
        /\ tag_get (py "href") a = Some href /\ href <> []
        /\ urljoin L BASE_URL href = Ok url
        /\ v_cve_id <$> refs = extract_cve_ids (get_text_strip a)
        /\ Forall (fun r => v_version r = version
                            /\ v_summary r = get_text_strip li
                            /\ v_link r = url) refs).
Proof.
  destruct (find (py "a") li) as [a|] eqn:Ha.
  - destruct (tag_get (py "href") a) as [[|c href]|] eqn:Hh.
    + rewrite parse_item_skips by (right; eauto).
      intros [= <-]. left. split; [reflexivity|]. right. eauto.
    + rewrite (parse_item_link version li a c href Ha Hh).
      destruct (urljoin L BASE_URL (c :: href)) as [url|e] eqn:Hu;
        cbn [rbind]; [|discriminate].
      intros [= <-]. right. exists a, (c :: href), url.
      repeat split; try assumption; try discriminate.
      * rewrite <- list_fmap_compose. apply list_fmap_id.
      * apply Forall_fmap, Forall_true. intros id. cbn. auto.
    + rewrite parse_item_skips by (right; eauto).
      intros [= <-]. left. split; [reflexivity|]. right. eauto.
  - rewrite parse_item_skips by (left; exact Ha).
    intros [= <-]. left. split; [reflexivity | left; reflexivity].
Qed.

Lemma parse_header_no_list header :
  find_next_sibling (py "ul") header = None -> parse_header L header = Ok [].
Proof. unfold parse_header. intros ->. reflexivity. Qed.

Lemma parse_header_list header ul :
  find_next_sibling (py "ul") header = Some ul ->
  parse_header L header
  = for_append (parse_item L (get_text_strip (fst header)))
      (fst <$> find_all (py "li") ul).
Proof. unfold parse_header. intros ->. reflexivity. Qed.

Lemma parse_soup_Raise soup e :
  parse_soup L soup = Raise e ->
  exists href, urljoin L BASE_URL href = Raise e.
Proof.
  unfold parse_soup. intros (header & _ & Hh)%for_append_Raise.
  unfold parse_header in Hh.
  destruct (find_next_sibling (py "ul") header); [|discriminate].
  apply for_append_Raise in Hh as (li & _ & Hli).
  destruct (find (py "a") li) as [a|] eqn:Ha.
  - destruct (tag_get (py "href") a) as [[|c href]|] eqn:Hhref.
    + rewrite parse_item_skips in Hli by (right; eauto). discriminate.
    + rewrite (parse_item_link _ li a c href Ha Hhref) in Hli.
      destruct (urljoin L BASE_URL (c :: href)) as [url|e'] eqn:Hu;
        cbn [rbind] in Hli; [discriminate|].
      injection Hli as ->. eauto.
    + rewrite parse_item_skips in Hli by (right; eauto). discriminate.
  - rewrite parse_item_skips in Hli by (left; exact Ha). discriminate.
Qed.
End ParserFacts.

Lemma parse_vulnerabilities_total L html :
  (forall href, exists url, urljoin L BASE_URL href = Ok url) ->
  exists vulns, parse_vulnerabilities L html = Ok vulns.
Proof.
  intros Hjoin. unfold parse_vulnerabilities.
  destruct (parse_soup L (BeautifulSoup L html)) as [vulns|e] eqn:Hp;
    [eexists; reflexivity|].
  apply parse_soup_Raise in Hp as (href & Hraise).
  destruct (Hjoin href) as (url & Hok). congruence.
Qed.

Lemma find_next_sibling_later name n before l after :
  Forall (fun s => is_tag name s = false) before ->
  is_tag name l = true ->
  find_next_sibling name (n, before ++ l :: after) = Some l.
Proof.
  unfold find_next_sibling. cbn [snd].
  induction 1 as [|s before Hs _ IH]; intros Hl; cbn [app List.find].
  - rewrite Hl. reflexivity.
  - rewrite Hs. exact (IH Hl).
Qed.

(** C5 (amended): the references of a bulletin are the contributions of
    its headings in document order; a heading contributes the
    contributions of the items of its list in document order; an item
    whose first link has a target contributes one reference per
    identifier in the text of the link, in the order of the
    identifiers, and these references share version, summary and link.
    An item is counted once for every heading whose list holds it.  The
    parser returns whenever [urljoin] does. *)
Theorem parse_emits_per_heading_item_identifier (L : library) :
  (forall html vulns,
     parse_vulnerabilities L html = Ok vulns ->
     exists groups,
       Forall2 (fun header g => parse_header L header = Ok g)
         (find_all (py "h3") (BeautifulSoup L html)) groups
       /\ vulns = concat groups)
  /\ (forall header g,
        parse_header L header = Ok g ->
        match find_next_sibling (py "ul") header with
        | None => g = []
        | Some ul =>
            exists per_item,
              Forall2 (fun li refs =>
                         parse_item L (get_text_strip (fst header)) li = Ok refs)
                (fst <$> find_all (py "li") ul) per_item
              /\ g = concat per_item
        end)
  /\ (forall version li a href url,
        find (py "a") li = Some a ->
        tag_get (py "href") a = Some href -> href <> [] ->
        urljoin L BASE_URL href = Ok url ->
        exists refs,
          parse_item L version li = Ok refs
          /\ length refs = length (extract_cve_ids (get_text_strip a))
          /\ v_cve_id <$> refs = extract_cve_ids (get_text_strip a)
          /\ Forall (fun r => v_version r = version
                              /\ v_summary r = get_text_strip li
                              /\ v_link r = url) refs)
  /\ ((forall href, exists url, urljoin L BASE_URL href = Ok url) ->
      forall html, exists vulns, parse_vulnerabilities L html = Ok vulns).
Proof.
  split; [|split; [|split]].
  - intros html vulns H. apply for_append_Ok in H. exact H.
  - intros header g H. destruct (find_next_sibling (py "ul") header) as [ul|] eqn:Hul.
    + rewrite (parse_header_list L header ul Hul) in H.
      apply for_append_Ok in H. exact H.
    + rewrite (parse_header_no_list L header Hul) in H. congruence.
  - intros version li a href url Ha Hh Hne Hu.
    destruct href as [|c href]; [contradiction|].
    rewrite (parse_item_link L version li a c href Ha Hh), Hu. cbn [rbind].
    eexists. split; [reflexivity|]. split; [|split].
    + apply length_fmap.
    + rewrite <- list_fmap_compose. apply list_fmap_id.
    + apply Forall_fmap, Forall_true. intros id. cbn. auto.
  - intros Hjoin html. apply parse_vulnerabilities_total, Hjoin.
Qed.

(** The item of the first scenario: one identifier, one reference. *)
Lemma parse_emits_per_heading_item_identifier_witness :
  exists refs,
    parse_item scenario_library (py "1.0") scenario_item = Ok refs
    /\ length refs = 1%nat.
Proof.
  destruct (proj1 (proj2 (proj2 (parse_emits_per_heading_item_identifier
                                   scenario_library)))
              (py "1.0") scenario_item scenario_link (py "/adv/1.html")
              (py "https://www.openoffice.org/adv/1.html")
              eq_refl eq_refl ltac:(discriminate) eq_refl)
    as (refs & Hrefs & Hlen & _).
  exists refs. split; [exact Hrefs | exact Hlen].
Defined.

(** C5, as stated, fails on a bulletin with two headings in front of
    one list: the list has one item, the link of the item names one
    identifier, and the parser emits two references for it, which
    differ in the version. *)
Lemma two_headings_emit_the_item_twice :
  length (find_all (py "li") two_headings_one_list) = 1%nat
  /\ parse_vulnerabilities (example_library two_headings_one_list)
       two_headings_text
     = Ok [ example_reference (py "4.1"); example_reference (py "4.0") ].
Proof. split; vm_compute; reflexivity. Qed.

(** C6 (amended): a heading with no list among the siblings behind it
    contributes nothing; otherwise its list is the first such sibling,
    whatever stands between the two.  An item without a link, or whose
    first link has no target or an empty one, is passed over.  The
    parser raises nothing of its own: an exception of
    [parse_vulnerabilities] is one [urljoin] raised on a link target,
    and a bulletin without headings yields the empty list. *)
Theorem parse_tolerates_absence (L : library) :
  (forall header,
     find_next_sibling (py "ul") header = None -> parse_header L header = Ok [])
  /\ (forall n before ul after,
        Forall (fun s => is_tag (py "ul") s = false) before ->
        is_tag (py "ul") ul = true ->
        parse_header L (n, before ++ ul :: after)
        = for_append (parse_item L (get_text_strip n))
            (fst <$> find_all (py "li") ul))
  /\ (forall version li,
        find (py "a") li = None
        \/ (exists a, find (py "a") li = Some a
                      /\ (tag_get (py "href") a = None
                          \/ tag_get (py "href") a = Some [])) ->
        parse_item L version li = Ok [])
  /\ (forall html e,
        parse_vulnerabilities L html = Raise e ->
        exists href, urljoin L BASE_URL href = Raise e)
  /\ ((forall href, exists url, urljoin L BASE_URL href = Ok url) ->
      forall html, exists vulns, parse_vulnerabilities L html = Ok vulns)
  /\ (forall html,
        find_all (py "h3") (BeautifulSoup L html) = [] ->
        parse_vulnerabilities L html = Ok []).
Proof.
  split; [|split; [|split; [|split; [|split]]]].
  - apply parse_header_no_list.
  - intros n before ul after Hb Hul.
    apply (parse_header_list L (n, before ++ ul :: after) ul).
    apply find_next_sibling_later; assumption.
  - apply parse_item_skips.
  - intros html e. apply parse_soup_Raise.
  - intros Hjoin html. apply parse_vulnerabilities_total, Hjoin.
  - intros html H. unfold parse_vulnerabilities, parse_soup. rewrite H. reflexivity.
Qed.

(** A heading with nothing behind it, and an item without a link. *)
Lemma parse_tolerates_absence_witness :
  parse_header scenario_library (heading (py "1.0"), []) = Ok []
  /\ parse_item scenario_library (py "1.0")
       (Tag (py "li") ∅ [ Text (py "CVE-2021-9999") ]) = Ok [].
Proof.
  pose proof (parse_tolerates_absence scenario_library) as (H1 & _ & H3 & _).
  split; [apply H1; reflexivity | apply H3; left; reflexivity].
Defined.

(** C6, as stated, fails twice.  A heading that is followed by a
    paragraph and only then by a list has no list immediately behind
    it, and contributes the items of that list all the same.  And a
    link target on which [urljoin] raises makes the parser raise. *)
Lemma later_list_counts_and_bad_target_raises :
  (fun header => is_tag (py "ul") <$> head (snd header))
    <$> find_all (py "h3") heading_paragraph_list = [Some false]
  /\ parse_vulnerabilities (example_library heading_paragraph_list)
       heading_paragraph_text
     = Ok [ example_reference (py "4.1") ]
  /\ parse_vulnerabilities (example_library bad_target_list) bad_target_text
     = Raise ValueError.
Proof. repeat split; vm_compute; reflexivity. Qed.

Lemma generate_cve_content_None L E path h :
  load_cve L E h path = None -> generate_cve_content L E path h = (Ok None, h).
Proof. unfold generate_cve_content. intros ->. reflexivity. Qed.

Lemma load_cve_json L E h path data :
  read_file E h path = Some (JsonFile data) ->
  load_cve L E h path = cve_of_data L data.
Proof. unfold load_cve. intros ->. reflexivity. Qed.

(** C3 (amended): a candidate without the key [affected_version], or
    without the key [description], is validated as if the key held the
    placeholder, so the absence is no ground for rejection.  The two
    fields of an accepted record are the placeholder when the key is
    absent and the string of the candidate otherwise, which may be
    empty.  A candidate in which one of the two is [null] is
    rejected. *)
Theorem missing_metadata_placeholders (L : library) (d : gmap pystr json) :
  (d !! py "affected_version" = None ->
   cve_of_data L (JObject d)
   = cve_of_data L
       (JObject (<[py "affected_version" := JString (py "UNKNOWN")]> d)))
  /\ (d !! py "description" = None ->
      cve_of_data L (JObject d)
      = cve_of_data L
          (JObject (<[py "description"
                      := JString (py "No description available")]> d)))
  /\ (forall c,
        cve_of_data L (JObject d) = Some c ->
        ((d !! py "affected_version" = None
          /\ affected_version c = py "UNKNOWN")
         \/ d !! py "affected_version" = Some (JString (affected_version c)))
        /\ ((d !! py "description" = None
             /\ description c = py "No description available")
            \/ d !! py "description" = Some (JString (description c))))
  /\ (d !! py "affected_version" = Some JNull
      \/ d !! py "description" = Some JNull ->
      cve_of_data L (JObject d) = None).
Proof.
  split; [|split; [|split]].
  - intros H. cbn [cve_of_data]. unfold dict_get.
    rewrite lookup_insert_eq, H.
    rewrite !lookup_insert_ne by discriminate. reflexivity.
  - intros H. cbn [cve_of_data]. unfold dict_get.
    rewrite lookup_insert_eq, H.
    rewrite !lookup_insert_ne by discriminate. reflexivity.
  - intros c (d' & [= <-] & _ & _ & Hv & Hd & _)%cve_of_data_Some.
    split; assumption.
  - intros Hnull.
    destruct (cve_of_data L (JObject d)) as [c|] eqn:Hc; [|reflexivity].
    apply cve_of_data_Some in Hc as (d' & [= <-] & _ & _ & Hv & Hd & _).
    destruct Hnull as [Hn|Hn]; rewrite Hn in *.
    + destruct Hv as [[? _]|?]; discriminate.
    + destruct Hd as [[? _]|?]; discriminate.
Qed.

(** A candidate with neither version nor description is accepted with
    the two placeholders. *)
Lemma missing_metadata_placeholders_witness :
  cve_of_data (example_library empty_paragraph_page) (JObject bare_candidate)
  = Some {| cve_id := py "CVE-2020-1";
            affected_version := py "UNKNOWN";
            description := py "No description available";
            source_url := None |}.
Proof.
  rewrite (proj1 (missing_metadata_placeholders
                    (example_library empty_paragraph_page) bare_candidate)
             eq_refl).
  vm_compute. reflexivity.
Defined.

(** C3, as stated, fails on [None] and on the claim that the fields are
    not empty: a candidate whose version is [null] is rejected, and a
    candidate whose version and description are empty strings is
    accepted with both fields empty. *)
Lemma null_version_rejected_empty_fields_accepted :
  (forall L, cve_of_data L null_version_data = None)
  /\ (forall L,
        cve_of_data L empty_fields_data
        = Some {| cve_id := py "CVE-2020-1"; affected_version := [];
                  description := []; source_url := None |}).
Proof. split; intros L; vm_compute; reflexivity. Qed.

(** C4 (amended): the validator rejects a candidate exactly when it is
    not [acceptable]: when it is no object, when its identifier is
    missing, no string or not of the anchored shape, when its version
    or description is present and no string, or when its source URL is
    present, not [null] and not a string the URL type accepts.  The
    digits of the shape are those of the pattern engine of the
    validator.  The rejection is of the whole candidate:
    [generate_cve_content] returns [None] and writes nothing, on any
    file system.  An acceptable candidate passes the [try] block.  The
    identifiers [CVE-20-1], [cve-2020-1] and [CVE-2020-] are refused
    whatever the engine takes for a digit. *)
Theorem validation_rejects
    (L : library) (E : environment) (data : json) :
  (cve_of_data L data = None <-> ~ acceptable L data)
  /\ (forall w h path,
        read_file E h path = Some (JsonFile data) ->
        ~ acceptable L data ->
        generate_cve_content L E path h = (Ok None, h)
        /\ Disk.generate_cve_content w L E path h = (Ok None, h))
  /\ (forall h path,
        read_file E h path = Some (JsonFile data) ->
        acceptable L data ->
        exists c, load_cve L E h path = Some c /\ cve_of_data L data = Some c)
  /\ cve_id_constraint L (py "CVE-20-1") = false
  /\ cve_id_constraint L (py "cve-2020-1") = false
  /\ cve_id_constraint L (py "CVE-2020-") = false.
Proof.
  assert (Hiff : cve_of_data L data = None <-> ~ acceptable L data).
  { rewrite <- cve_of_data_acceptable.
    destruct (cve_of_data L data) as [c|]; split.
    - discriminate.
    - intros H. exfalso. apply H. eexists. reflexivity.
    - intros _ [c Hc]. discriminate.
    - reflexivity. }
  split; [exact Hiff|]. split; [|split; [|repeat split]].
  - intros w h path Hread Hno.
    assert (Hload : load_cve L E h path = None).
    { rewrite (load_cve_json L E h path data Hread). apply Hiff, Hno. }
    split; [apply generate_cve_content_None, Hload|].
    unfold Disk.generate_cve_content. rewrite Hload. reflexivity.
  - intros h path Hread [c Hc]%cve_of_data_acceptable.
    exists c. rewrite (load_cve_json L E h path data Hread). split; exact Hc.
Qed.

(** A saved candidate with the identifier [CVE-20-1] is rejected and
    nothing is written. *)
Lemma validation_rejects_witness :
  generate_cve_content (example_library empty_paragraph_page) server_down
    example_record_path [ WriteFile example_record_path (JsonFile short_year_data) ]
  = (Ok None, [ WriteFile example_record_path (JsonFile short_year_data) ]).
Proof.
  pose proof (validation_rejects (example_library empty_paragraph_page)
                server_down short_year_data) as (Hiff & Hrej & _).
  apply (Hrej every_write); [reflexivity|]. apply Hiff. vm_compute. reflexivity.
Defined.

(** C4, as stated, fails on a candidate whose description is [null]:
    its identifier has the shape and it has no source URL, and it is
    rejected. *)
Lemma null_description_rejected :
  (forall L, cve_id_constraint L (py "CVE-2020-1") = true)
  /\ (forall L, cve_of_data L null_description_data = None).
Proof. split; intros L; vm_compute; reflexivity. Qed.

(** The digits of the validator are those of its own engine: an
    identifier in KAWI digits, which [re] of CPython 3.11 does not
    match, is accepted where the engine follows Unicode 15.0. *)
Example kawi_identifier_accepted :
  cve_id_pattern kawi_id = false
  /\ cve_of_data (example_library empty_paragraph_page) kawi_data
     = Some {| cve_id := kawi_id; affected_version := py "1.0";
               description := py "Heap overflow."; source_url := None |}.
Proof. split; vm_compute; reflexivity. Qed.

(** ** The artifact renderer *)

Lemma generate_cve_content_Some L E path h c :
  load_cve L E h path = Some c ->
  generate_cve_content L E path h
  = (Ok (Some c),
     WriteFile (path_join CVES_CONTENT_DIR (cve_id c ++ py ".vck"))
       (XmlFile
          (plugin_entry_xml c
             (utcnow E
                (WriteFile (path_join CVES_CONTENT_DIR (cve_id c ++ py ".sol"))
                   (XmlFile (solution_xml c))
                 :: WriteFile (path_join CVES_CONTENT_DIR (cve_id c ++ py ".xml"))
                      (XmlFile (vulnerability_xml c))
                 :: h))))
     :: WriteFile (path_join CVES_CONTENT_DIR (cve_id c ++ py ".sol"))
          (XmlFile (solution_xml c))
     :: WriteFile (path_join CVES_CONTENT_DIR (cve_id c ++ py ".xml"))
          (XmlFile (vulnerability_xml c))
     :: h).
Proof. unfold generate_cve_content. intros ->. reflexivity. Qed.

Lemma written_other path p content h :
  p <> path -> written path (WriteFile p content :: h) = written path h.
Proof.
  intros Hne. cbn [written]. rewrite bool_decide_eq_false_2 by exact Hne.
  reflexivity.
Qed.

(** C9: two renderings of the same validated record, at any two times
    and in any two states of the world, return the record and write the
    same three files.  The vulnerability document and the solution
    document are equal, and the two plugin entries are equal once the
    text of [GENERATED_AT] is left out: the entry is a function of the
    record and the clock, the two others of the record alone.  A second
    rendering right after the first finds the record unchanged, unless
    the record was read from one of the three files themselves. *)
Theorem rendering_twice
    (L : library) (E1 E2 : environment) (path : pystr) (h1 h2 : history)
    (c : CVE) :
  load_cve L E1 h1 path = Some c ->
  load_cve L E2 h2 path = Some c ->
  let xml_path := path_join CVES_CONTENT_DIR (cve_id c ++ py ".xml") in
  let sol_path := path_join CVES_CONTENT_DIR (cve_id c ++ py ".sol") in
  let vck_path := path_join CVES_CONTENT_DIR (cve_id c ++ py ".vck") in
  let xml_w := WriteFile xml_path (XmlFile (vulnerability_xml c)) in
  let sol_w := WriteFile sol_path (XmlFile (solution_xml c)) in
  let t1 := utcnow E1 (sol_w :: xml_w :: h1) in
  let t2 := utcnow E2 (sol_w :: xml_w :: h2) in
  generate_cve_content L E1 path h1
  = (Ok (Some c),
     WriteFile vck_path (XmlFile (plugin_entry_xml c t1)) :: sol_w :: xml_w :: h1)
  /\ generate_cve_content L E2 path h2
     = (Ok (Some c),
        WriteFile vck_path (XmlFile (plugin_entry_xml c t2)) :: sol_w :: xml_w :: h2)
  /\ blank_generated_at (plugin_entry_xml c t1)
     = blank_generated_at (plugin_entry_xml c t2)
  /\ (t1 = t2 -> plugin_entry_xml c t1 = plugin_entry_xml c t2)
  /\ (path <> xml_path -> path <> sol_path -> path <> vck_path ->
      load_cve L E1 (snd (generate_cve_content L E1 path h1)) path = Some c).
Proof.
  intros H1 H2. cbv zeta.
  rewrite (generate_cve_content_Some L E1 path h1 c H1).
  rewrite (generate_cve_content_Some L E2 path h2 c H2).
  split; [reflexivity|]. split; [reflexivity|]. split; [reflexivity|].
  split; [intros ->; reflexivity|].
  intros Hx Hs Hv. cbn [snd]. rewrite <- H1.
  unfold load_cve, read_file.
  rewrite !written_other by (intros Heq; symmetry in Heq; contradiction).
  reflexivity.
Qed.

(** The saved example record rendered under two clocks. *)
Lemma rendering_twice_witness :
  fst (generate_cve_content (example_library empty_paragraph_page)
         (server_up []) example_record_path example_saved)
  = Ok (Some example_cve)
  /\ fst (generate_cve_content (example_library empty_paragraph_page)
            server_down example_record_path example_saved)
     = Ok (Some example_cve)
  /\ blank_generated_at
       (plugin_entry_xml example_cve (py "2024-01-01T00:00:3"))
     = blank_generated_at
         (plugin_entry_xml example_cve (py "2024-01-01T00:00:00")).
Proof.
  pose proof (rendering_twice (example_library empty_paragraph_page)
                (server_up []) server_down example_record_path
                example_saved example_saved example_cve eq_refl eq_refl) as H.
  cbv zeta in H. destruct H as (H1 & H2 & H3 & _).
  rewrite H1, H2. split; [reflexivity|]. split; [reflexivity | exact H3].
Defined.

(** ** The run *)


Lemma path_join_cases dir name :
  (exists r, name = ch "/" :: r /\ path_join dir name = name)
  \/ path_join dir name = dir ++ py "/" ++ name.
Proof.
  unfold path_join. destruct name as [|c r]; [right; reflexivity|].
  destruct (N.eqb_spec c (ch "/")) as [->|]; [left; eauto | right; reflexivity].
Qed.



(** The first scenario: one reference, its description joined from the
    two paragraphs, the three documents of the record, and an aggregate
    that counts one record. *)
Example scenario_one_record :
  parse_vulnerabilities scenario_library scenario_bulletin_text
  = Ok [ example_vuln ]
  /\ main scenario_library (scenario_site true) []
     = (Ok tt,
        [ WriteFile product_path
            (XmlFile (product_xml 1 (py "2024-01-01T00:00:00")));
          WriteFile (py "Content/OpenOffice/CVEs/CVE-2021-9999.vck")
            (XmlFile (plugin_entry_xml example_cve (py "2024-01-01T00:00:00")));
          WriteFile (py "Content/OpenOffice/CVEs/CVE-2021-9999.sol")
            (XmlFile (solution_xml example_cve));
          WriteFile (py "Content/OpenOffice/CVEs/CVE-2021-9999.xml")
            (XmlFile (vulnerability_xml example_cve));
          Sleep 500;
          WriteFile example_record_path
            (JsonFile (cve_data example_vuln (py "Heap overflow. Fix in 1.0.1.")));
          Get (v_link example_vuln);
          WriteFile (py "data/raw/openoffice_advisory.html")
            (TextFile scenario_bulletin_text);
          Get BASE_URL ]).
Proof. split; vm_compute; reflexivity. Qed.

(** The second scenario: the detail page cannot be retrieved; the run
    makes its three attempts, renders nothing and writes an aggregate
    that counts no record. *)
Example scenario_detail_down :
  main scenario_library (scenario_site false) []
  = (Ok tt,
     [ WriteFile product_path
         (XmlFile (product_xml 0 (py "2024-01-01T00:00:00")));
       Sleep 2000; Get (v_link example_vuln);
       Sleep 2000; Get (v_link example_vuln);
       Sleep 2000; Get (v_link example_vuln);
       WriteFile (py "data/raw/openoffice_advisory.html")
         (TextFile scenario_bulletin_text);
       Get BASE_URL ]).
Proof. vm_compute. reflexivity. Qed.

(** ** File names *)

Lemma fetch_and_save_cve_json_first L E cve retries h body :
  (1 <= retries)%Z ->
  requests_get E h (v_link cve) = Some body ->
  fst (fetch_and_save_cve_json L E cve retries h)
  = Ok (Some (path_join CVES_DIR (safe_filename (v_cve_id cve) ++ py ".json"))).
Proof.
  intros H1 Hok. unfold fetch_and_save_cve_json.
  destruct (py_range_first retries H1) as (rest & ->).
  cbn [fetch_json_attempts]. unfold except_RequestException.
  rewrite (try_fetch_json_ok L E cve h body Hok). reflexivity.
Qed.

(** C10 (amended): an identifier of the shape [CVE-dddd-d+] written with
    the digits [0-9] matches the pattern of the model and is its own
    safe file name, so the JSON record and the three rendered documents
    are named after the same string.  For any input, [safe_filename]
    returns characters of [[A-Za-z0-9_.-]] only, and its result neither
    starts nor ends with an underscore. *)
Theorem safe_filename_cve_id (year num name : pystr) :
  length year = 4%nat -> forallb ascii_digit year = true ->
  num <> [] -> forallb ascii_digit num = true ->
  let s := py "CVE-" ++ year ++ py "-" ++ num in
  cve_id_pattern s = true
  /\ safe_filename s = s
  /\ (forall L E cve retries h body,
        v_cve_id cve = s -> (1 <= retries)%Z ->
        requests_get E h (v_link cve) = Some body ->
        fst (fetch_and_save_cve_json L E cve retries h)
        = Ok (Some (path_join CVES_DIR (s ++ py ".json"))))
  /\ (forall L E path h c,
        load_cve L E h path = Some c -> cve_id c = s ->
        written_paths (snd (generate_cve_content L E path h))
        = [ path_join CVES_CONTENT_DIR (s ++ py ".vck");
            path_join CVES_CONTENT_DIR (s ++ py ".sol");
            path_join CVES_CONTENT_DIR (s ++ py ".xml") ]
          ++ written_paths h)
  /\ Forall (fun c => safe_char c = true) (safe_filename name)
  /\ (forall c, head (safe_filename name) = Some c -> c <> ch "_")
  /\ (forall c, last (safe_filename name) = Some c -> c <> ch "_").
Proof.
  intros Hlen Hyear Hne Hnum. cbv zeta.
  pose proof (safe_filename_ascii_id year num Hlen Hyear Hne Hnum) as Hid.
  split; [|split; [exact Hid|split; [|split; [|split; [|split]]]]].
  - apply cve_id_pattern_shaped, ascii_shaped_decimal.
    exists year, num. repeat split; assumption.
  - intros L E cve retries h body Hcve H1 Hok.
    rewrite (fetch_and_save_cve_json_first L E cve retries h body H1 Hok).
    rewrite Hcve, Hid. reflexivity.
  - intros L E path h c Hload Hc.
    rewrite (generate_cve_content_Some L E path h c Hload), Hc. reflexivity.
  - apply safe_filename_safe.
  - intros c Hc Heq. subst c.
    apply strip_head in Hc. vm_compute in Hc. discriminate.
  - intros c Hc Heq. subst c.
    apply strip_last in Hc. vm_compute in Hc. discriminate.
Qed.

(** The identifier [CVE-2021-9999] and the name [ _a/b  c d!_]. *)
Lemma safe_filename_cve_id_witness :
  safe_filename (py "CVE-2021-9999") = py "CVE-2021-9999"
  /\ Forall (fun c => safe_char c = true) (safe_filename (py " _a/b  c d!_")).
Proof.
  pose proof (safe_filename_cve_id (py "2021") (py "9999") (py " _a/b  c d!_")
                eq_refl eq_refl ltac:(discriminate) eq_refl) as H.
  cbv zeta in H. destruct H as (_ & H2 & _ & _ & H5 & _).
  split; [exact H2 | exact H5].
Defined.

(** C10, as stated, fails on an identifier written with other decimal
    digits: [\d] accepts them, so the identifier is extracted from the
    bulletin and passes the pattern of the model, and [safe_filename]
    drops them, so the JSON record is named [CVE--] and the rendered
    documents after the identifier itself. *)
Lemma unicode_digits_are_dropped :
  extract_cve_ids arabic_indic_id = [arabic_indic_id]
  /\ cve_id_pattern arabic_indic_id = true
  /\ safe_filename arabic_indic_id = py "CVE--"
  /\ safe_filename arabic_indic_id <> arabic_indic_id.
Proof. repeat split; vm_compute; try reflexivity. discriminate. Qed.

(** * Further properties of the programs *)

(** ** [safe_filename] and [extract_cve_ids] *)

Lemma safe_filename_head name c :
  head (safe_filename name) = Some c -> c <> ch "_".
Proof.
  unfold safe_filename. intros Hc Heq. subst c.
  apply strip_head in Hc. vm_compute in Hc. discriminate.
Qed.

Lemma safe_filename_last name c :
  last (safe_filename name) = Some c -> c <> ch "_".
Proof.
  unfold safe_filename. intros Hc Heq. subst c.
  apply strip_last in Hc. vm_compute in Hc. discriminate.
Qed.

(** X1: a name that has been made safe is left as it is by a second
    pass; no path separator and no white space survives the first. *)
Theorem safe_filename_idempotent (name : pystr) :
  safe_filename (safe_filename name) = safe_filename name
  /\ Forall (fun c => c <> ch "/" /\ isspace c = false) (safe_filename name).
Proof.
  split.
  - apply safe_filename_id.
    + apply safe_filename_safe.
    + apply safe_filename_head.
    + apply safe_filename_last.
  - eapply Forall_impl; [apply safe_filename_safe|].
    intros c Hc. split; [apply safe_char_not_slash | apply safe_char_not_space];
      exact Hc.
Qed.

Lemma CVE_shaped_length digit m : CVE_shaped digit m -> (10 <= length m)%nat.
Proof.
  intros (year & num & -> & Hlen & _ & Hne & _).
  rewrite !length_app, Hlen. destruct num; [contradiction|]. cbn. lia.
Qed.

Lemma weave_length gaps ms :
  length gaps = S (length ms) ->
  (length (concat ms) <= length (weave gaps ms))%nat.
Proof.
  revert gaps. induction ms as [|m ms IH]; intros [|g gaps] Hl; try discriminate.
  - cbn. lia.
  - cbn [weave concat]. rewrite !length_app.
    injection Hl as Hl. specialize (IH gaps Hl). lia.
Qed.

Lemma concat_length_shaped digit ms :
  Forall (CVE_shaped digit) ms -> (10 * length ms <= length (concat ms))%nat.
Proof.
  induction 1 as [|m ms Hm _ IH]; [cbn; lia|].
  cbn [concat length]. rewrite length_app.
  apply CVE_shaped_length in Hm. lia.
Qed.

(** X2: an identifier takes at least ten characters and the matches do
    not overlap, so a text holds at most a tenth of its length in
    identifiers; a text of fewer than ten characters holds none. *)
Theorem extract_cve_ids_bound (text : pystr) :
  (10 * length (extract_cve_ids text) <= length text)%nat
  /\ ((length text < 10)%nat -> extract_cve_ids text = []).
Proof.
  assert (H : (10 * length (extract_cve_ids text) <= length text)%nat).
  { pose proof (extract_cve_ids_matches text) as Hm.
    destruct (matches_of_weave _ _ Hm) as (gaps & Hl & Ht).
    pose proof (weave_length gaps _ Hl) as Hw. rewrite <- Ht in Hw.
    pose proof (concat_length_shaped _ _ (matches_of_shaped _ _ Hm)). lia. }
  split; [exact H|].
  intros Hshort. destruct (extract_cve_ids text); [reflexivity|].
  cbn [length] in H. lia.
Qed.

Lemma match_cve_other c s : c <> ch "C" -> match_cve (c :: s) = None.
Proof.
  intros Hc. unfold match_cve.
  change (py "CVE-") with (ch "C" :: py "VE-"). cbn [match_literal].
  destruct (N.eqb_spec (ch "C") c) as [Heq|]; [congruence | reflexivity].
Qed.

Lemma extract_cve_ids_skip sep rest :
  Forall (fun c => c <> ch "C") sep ->
  extract_cve_ids (sep ++ rest) = extract_cve_ids rest.
Proof.
  induction 1 as [|c sep Hc _ IH]; [reflexivity|].
  cbn [app]. rewrite extract_cve_ids_pass by (apply match_cve_other, Hc).
  exact IH.
Qed.

Lemma extract_cve_ids_alone m :
  CVE_shaped isdecimal m -> extract_cve_ids m = [m].
Proof.
  intros Hm. rewrite <- (app_nil_r m) at 1.
  rewrite (extract_cve_ids_take (m ++ []) m []).
  - reflexivity.
  - apply match_cve_longest; [exact Hm | intros c; discriminate].
Qed.

(** X3: identifiers written one after the other, with a separator
    between them that starts with no digit and holds no [C], are
    extracted again as they were written, in the same order and with
    their repetitions. *)
Theorem extract_cve_ids_joined (sep : pystr) (ids : list pystr) :
  sep <> [] ->
  (forall c, head sep = Some c -> isdecimal c = false) ->
  Forall (fun c => c <> ch "C") sep ->
  Forall (CVE_shaped isdecimal) ids ->
  extract_cve_ids (join sep ids) = ids.
Proof.
  intros Hne Hstop HnoC Hids.
  induction Hids as [|m ids Hm Hids IH]; [reflexivity|].
  destruct ids as [|m' ids].
  - cbn [join]. apply extract_cve_ids_alone, Hm.
  - change (join sep (m :: m' :: ids)) with (m ++ sep ++ join sep (m' :: ids)).
    rewrite (extract_cve_ids_take _ m (sep ++ join sep (m' :: ids))).
    + rewrite (extract_cve_ids_skip sep _ HnoC), IH. reflexivity.
    + apply match_cve_longest; [exact Hm|].
      intros c Hc. apply Hstop. destruct sep; [contradiction | exact Hc].
Qed.

(** The identifiers of the docstring of [extract_cve_ids], with its
    separator. *)
Lemma extract_cve_ids_joined_witness :
  extract_cve_ids (py "CVE-2020-1234 / CVE-2020-5678")
  = [ py "CVE-2020-1234"; py "CVE-2020-5678" ].
Proof.
  apply (extract_cve_ids_joined (py " / ")
           [ py "CVE-2020-1234"; py "CVE-2020-5678" ]).
  - discriminate.
  - intros c [= <-]. reflexivity.
  - repeat constructor; discriminate.
  - repeat constructor; apply cve_id_pattern_shaped; reflexivity.
Defined.

(** ** Documents *)

Lemma part_of_refl {A} (x : list A) : part_of x x.
Proof. exists [], []. rewrite app_nil_r. reflexivity. Qed.

Lemma part_of_trans {A} (x y z : list A) :
  part_of x y -> part_of y z -> part_of x z.
Proof.
  intros (b1 & e1 & ->) (b2 & e2 & ->).
  exists (b2 ++ b1), (e1 ++ e2). rewrite <- !app_assoc. reflexivity.
Qed.

Lemma part_of_app_l {A} (x y z : list A) : part_of x y -> part_of x (y ++ z).
Proof.
  intros (b & e & ->). exists b, (e ++ z). rewrite <- !app_assoc. reflexivity.
Qed.

Lemma part_of_app_r {A} (x y z : list A) : part_of x z -> part_of x (y ++ z).
Proof.
  intros (b & e & ->). exists (y ++ b), e. rewrite <- !app_assoc. reflexivity.
Qed.

Lemma part_of_cons {A} (a : A) (x y : list A) : part_of x y -> part_of x (a :: y).
Proof. apply (part_of_app_r x [a] y). Qed.

(** A function that respects concatenation respects [part_of]. *)
Lemma part_of_hom {A B} (f : list A -> list B) x y :
  (forall a b, f (a ++ b) = f a ++ f b) ->
  part_of x y -> part_of (f x) (f y).
Proof.
  intros Hf (b & e & ->). exists (f b), (f e). rewrite !Hf. reflexivity.
Qed.

Lemma part_of_nonempty {A} (x y : list A) : part_of x y -> x <> [] -> y <> [].
Proof.
  intros (b & e & ->) Hx Hy.
  apply app_eq_nil in Hy as [_ Hy]. apply app_eq_nil in Hy as [Hy _].
  contradiction.
Qed.

Lemma node_forall (P : node -> Prop) :
  (forall s, P (Text s)) ->
  (forall name attrs cs, Forall P cs -> P (Tag name attrs cs)) ->
  forall n, P n.
Proof.
  intros Htext Htag. fix IH 1. intros [s|name attrs cs]; [apply Htext|].
  apply Htag. induction cs as [|c cs IHcs]; constructor; [apply IH | exact IHcs].
Qed.

Lemma subtree_descendants n behind :
  subtree n behind = (n, behind) :: descendants n.
Proof. destruct n; reflexivity. Qed.

Lemma forest_of_cons c behind :
  forest_of subtree (c :: behind) = subtree c behind ++ forest_of subtree behind.
Proof. reflexivity. Qed.

(** The subtree of a node met in a walk is one piece of the walk. *)
Lemma subtree_part n :
  forall behind e,
    In e (subtree n behind) ->
    part_of (subtree (fst e) (snd e)) (subtree n behind).
Proof.
  induction n as [s|name attrs cs IH] using node_forall; intros behind e.
  - intros [<-|[]]. apply part_of_refl.
  - rewrite subtree_descendants. intros [<-|Hin].
    + rewrite <- subtree_descendants. apply part_of_refl.
    + apply part_of_cons. cbn [descendants] in *.
      induction IH as [|c rest Hc _ IHrest]; [destruct Hin|].
      rewrite forest_of_cons in *. apply in_app_or in Hin as [Hin|Hin].
      * apply part_of_app_l, Hc, Hin.
      * apply part_of_app_r, IHrest, Hin.
Qed.

Lemma descendants_part n e :
  In e (descendants n) -> part_of (descendants (fst e)) (descendants n).
Proof.
  intros Hin.
  assert (Hsub : part_of (subtree (fst e) (snd e)) (subtree n [])).
  { apply subtree_part. rewrite subtree_descendants. right. exact Hin. }
  destruct n as [s|name attrs cs]; [destruct Hin|].
  cbn [descendants] in *.
  apply (part_of_trans _ (subtree (fst e) (snd e))).
  - rewrite subtree_descendants. apply part_of_cons, part_of_refl.
  - clear Hsub. induction cs as [|c rest IH]; [destruct Hin|].
    rewrite forest_of_cons in *. apply in_app_or in Hin as [Hin|Hin].
    + apply part_of_app_l, subtree_part, Hin.
    + apply part_of_app_r, IH, Hin.
Qed.

Lemma omap_app_list {A B} (f : A -> option B) (l k : list A) :
  omap f (l ++ k) = omap f l ++ omap f k.
Proof.
  induction l as [|x l IH]; [reflexivity|].
  cbn. destruct (f x); cbn; rewrite IH; reflexivity.
Qed.

(** The text of a node below [n] is one piece of the text of [n]. *)
Lemma get_text_strip_part n e :
  In e (descendants n) -> part_of (get_text_strip (fst e)) (get_text_strip n).
Proof.
  intros Hin%descendants_part. unfold get_text_strip.
  apply (part_of_hom (@concat N)); [apply concat_app|].
  apply (part_of_hom (List.filter nonempty)); [apply List.filter_app|].
  apply (part_of_hom (fmap (strip isspace))); [apply fmap_app|].
  apply (part_of_hom (omap text_of)); [apply omap_app_list|].
  exact Hin.
Qed.

Lemma head_In {A} (l : list A) x : head l = Some x -> In x l.
Proof. destruct l; [discriminate|]. intros [= ->]. left. reflexivity. Qed.

Lemma find_descendant name n a :
  find name n = Some a ->
  exists behind, In (a, behind) (descendants n) /\ is_tag name a = true.
Proof.
  unfold find, find_all.
  intros ([a' behind] & Hh & ->)%fmap_Some.
  apply head_In, filter_In in Hh as [Hin Htag].
  exists behind. split; assumption.
Qed.

Lemma weave_part gaps ms m :
  length gaps = S (length ms) -> In m ms -> part_of m (weave gaps ms).
Proof.
  revert gaps. induction ms as [|m' ms IH]; intros [|g gaps] Hl Hin;
    try discriminate; [destruct Hin|].
  cbn [weave]. destruct Hin as [->|Hin].
  - exists g, (weave gaps ms). reflexivity.
  - injection Hl as Hl. apply part_of_app_r, part_of_app_r, IH; assumption.
Qed.

Lemma extracted_part text id :
  In id (extract_cve_ids text) -> part_of id text.
Proof.
  intros Hin.
  destruct (matches_of_weave _ _ (extract_cve_ids_matches text))
    as (gaps & Hl & Ht).
  rewrite Ht at 1. apply weave_part; assumption.
Qed.

Lemma concat_head_last (l : list pystr) (P : N -> Prop) :
  Forall (fun x => x <> []
                   /\ (forall c, head x = Some c -> P c)
                   /\ (forall c, last x = Some c -> P c)) l ->
  (forall c, head (concat l) = Some c -> P c)
  /\ (forall c, last (concat l) = Some c -> P c).
Proof.
  induction 1 as [|x l (Hne & Hh & Hl) _ [IHh IHl]]; [split; intros c; discriminate|].
  cbn [concat]. split; intros c.
  - destruct x as [|a x]; [contradiction|]. apply Hh.
  - rewrite last_app. destruct (last (concat l)) as [d|] eqn:Hd.
    + intros [= <-]. apply IHl. reflexivity.
    + apply Hl.
Qed.

Lemma get_text_strip_ends n :
  (forall c, head (get_text_strip n) = Some c -> isspace c = false)
  /\ (forall c, last (get_text_strip n) = Some c -> isspace c = false).
Proof.
  unfold get_text_strip.
  set (texts := omap text_of (descendants n)).
  apply concat_head_last.
  apply Forall_forall. intros x Hx%list_elem_of_In.
  apply filter_In in Hx as [Hx Hne].
  apply list_elem_of_In, list_elem_of_fmap in Hx as (s & -> & _).
  split; [intros Heq; rewrite Heq in Hne; discriminate|].
  split; intros c; [apply strip_head | apply strip_last].
Qed.

Lemma strip_get_text_strip n :
  strip isspace (get_text_strip n) = get_text_strip n.
Proof.
  destruct (get_text_strip_ends n) as [Hh Hl]. apply strip_id; assumption.
Qed.

(** X4: the text [get_text(strip=True)] returns neither starts nor ends
    with white space, so stripping it again changes nothing; and the
    text of a node below [n] is one piece of the text of [n]. *)
Theorem get_text_strip_trimmed (n : node) :
  (forall c, head (get_text_strip n) = Some c -> isspace c = false)
  /\ (forall c, last (get_text_strip n) = Some c -> isspace c = false)
  /\ strip isspace (get_text_strip n) = get_text_strip n
  /\ (forall e, In e (descendants n) ->
                part_of (get_text_strip (fst e)) (get_text_strip n)).
Proof.
  destruct (get_text_strip_ends n) as [Hh Hl].
  split; [exact Hh|]. split; [exact Hl|].
  split; [apply strip_get_text_strip | apply get_text_strip_part].
Qed.

Lemma select_p_none n : no_content_region n -> select_p false n = [].
Proof.
  unfold no_content_region.
  induction n as [s|name attrs cs IH] using node_forall; intros Hno;
    [reflexivity|].
  cbn [all_nodes] in Hno. apply Forall_cons in Hno as [Hid Hcs].
  cbn [select_p andb app tag_get] in *.
  rewrite bool_decide_eq_false_2 by exact Hid. cbn [orb].
  induction IH as [|c rest Hc _ IHrest]; [reflexivity|].
  cbn [flat_map] in *. apply Forall_app in Hcs as [H1 H2].
  rewrite (Hc H1), (IHrest H2). reflexivity.
Qed.

(** ** References and where they come from *)

Lemma for_append_In {A B} (body : A -> result (list B)) l vs v :
  for_append body l = Ok vs -> In v vs ->
  exists x g, In x l /\ body x = Ok g /\ In v g.
Proof.
  revert vs. induction l as [|x rest IH]; intros vs; cbn [for_append].
  - intros [= <-] [].
  - destruct (body x) as [g|e] eqn:Hx; cbn [rbind]; [|discriminate].
    destruct (for_append body rest) as [zs|e]; cbn [rbind]; [|discriminate].
    intros [= <-] [Hin|Hin]%in_app_or.
    + exists x, g. repeat split; [left; reflexivity | exact Hx | exact Hin].
    + destruct (IH zs eq_refl Hin) as (y & g' & Hy & Hg & Hv).
      exists y, g'. repeat split; [right; exact Hy | exact Hg | exact Hv].
Qed.

Lemma parse_soup_In L soup vulns v :
  parse_soup L soup = Ok vulns -> In v vulns ->
  exists header ul li a href,
    In header (find_all (py "h3") soup)
    /\ find_next_sibling (py "ul") header = Some ul
    /\ In li (fst <$> find_all (py "li") ul)
    /\ find (py "a") li = Some a
    /\ tag_get (py "href") a = Some href /\ href <> []
    /\ urljoin L BASE_URL href = Ok (v_link v)
    /\ In (v_cve_id v) (extract_cve_ids (get_text_strip a))
    /\ v_version v = get_text_strip (fst header)
    /\ v_summary v = get_text_strip li.
Proof.
  unfold parse_soup. intros Hp Hv.
  destruct (for_append_In _ _ _ _ Hp Hv) as (header & g & Hh & Hg & Hvg).
  destruct (find_next_sibling (py "ul") header) as [ul|] eqn:Hul.
  - rewrite (parse_header_list L header ul Hul) in Hg.
    destruct (for_append_In _ _ _ _ Hg Hvg) as (li & refs & Hli & Hrefs & Hvr).
    apply parse_item_Ok in Hrefs
      as [[-> _]|(a & href & url & Ha & Hhref & Hne & Hu & Hids & Hall)];
      [destruct Hvr|].
    pose proof (proj1 (Forall_forall _ _) Hall v
                  (proj2 (list_elem_of_In _ _) Hvr)) as (Hver & Hsum & Hlink).
    exists header, ul, li, a, href. rewrite Hlink.
    repeat split; try assumption.
    rewrite <- Hids. apply list_elem_of_In, list_elem_of_fmap_2, list_elem_of_In, Hvr.
  - rewrite (parse_header_no_list L header Hul) in Hg.
    injection Hg as <-. destruct Hvg.
Qed.

(** X5: every reference the parser returns was read off the document:
    there is a heading, the list behind it, an item of that list and
    the first link of the item such that the version is the text of
    the heading, the summary the text of the item, the link the target
    of the link joined to the address of the bulletin, and the
    identifier one of those in the text of the link. *)
Theorem parsed_reference_provenance
    (L : library) (html : pystr) (vulns : list vuln) (v : vuln) :
  parse_vulnerabilities L html = Ok vulns -> In v vulns ->
  exists header ul li a href,
    In header (find_all (py "h3") (BeautifulSoup L html))
    /\ find_next_sibling (py "ul") header = Some ul
    /\ In li (fst <$> find_all (py "li") ul)
    /\ find (py "a") li = Some a
    /\ tag_get (py "href") a = Some href /\ href <> []
    /\ urljoin L BASE_URL href = Ok (v_link v)
    /\ In (v_cve_id v) (extract_cve_ids (get_text_strip a))
    /\ v_version v = get_text_strip (fst header)
    /\ v_summary v = get_text_strip li.
Proof. apply parse_soup_In. Qed.

(** The reference of the first scenario. *)
Lemma parsed_reference_provenance_witness :
  exists header ul li a href,
    In header (find_all (py "h3") scenario_bulletin)
    /\ find_next_sibling (py "ul") header = Some ul
    /\ In li (fst <$> find_all (py "li") ul)
    /\ find (py "a") li = Some a
    /\ tag_get (py "href") a = Some href /\ href <> []
    /\ urljoin scenario_library BASE_URL href = Ok (v_link example_vuln)
    /\ In (v_cve_id example_vuln) (extract_cve_ids (get_text_strip a))
    /\ v_version example_vuln = get_text_strip (fst header)
    /\ v_summary example_vuln = get_text_strip li.
Proof.
  exact (parsed_reference_provenance scenario_library scenario_bulletin_text
           [ example_vuln ] example_vuln eq_refl (or_introl eq_refl)).
Defined.

(** X6: every reference the parser returns carries an identifier that
    the validator's pattern accepts, and a summary in which this
    identifier occurs; so the summary is not empty, and neither is the
    description of the record, whatever the detail page holds.  Version
    and summary have no white space at their ends. *)
Theorem parsed_reference_invariants
    (L : library) (html : pystr) (vulns : list vuln) (v : vuln) :
  parse_vulnerabilities L html = Ok vulns -> In v vulns ->
  cve_id_pattern (v_cve_id v) = true
  /\ part_of (v_cve_id v) (v_summary v)
  /\ v_summary v <> []
  /\ (forall body, page_description L body (v_summary v) <> [])
  /\ strip isspace (v_summary v) = v_summary v
  /\ strip isspace (v_version v) = v_version v.
Proof.
  intros Hp Hv.
  destruct (parse_soup_In L _ vulns v Hp Hv)
    as (header & ul & li & a & href & _ & _ & _ & Ha & _ & _ & _ & Hid & Hver & Hsum).
  assert (Hshape : CVE_shaped isdecimal (v_cve_id v)).
  { pose proof (matches_of_shaped _ _ (extract_cve_ids_matches (get_text_strip a)))
      as Hall.
    exact (proj1 (Forall_forall _ _) Hall _ (proj2 (list_elem_of_In _ _) Hid)). }
  assert (Hpart : part_of (v_cve_id v) (v_summary v)).
  { rewrite Hsum. apply (part_of_trans _ (get_text_strip a)).
    - apply extracted_part, Hid.
    - destruct (find_descendant _ _ _ Ha) as (behind & Hin & _).
      apply (get_text_strip_part li (a, behind) Hin). }
  assert (Hne : v_summary v <> []).
  { apply (part_of_nonempty _ _ Hpart). intros Heq.
    apply CVE_shaped_length in Hshape. rewrite Heq in Hshape. cbn in Hshape. lia. }
  split; [apply cve_id_pattern_shaped, Hshape|].
  split; [exact Hpart|]. split; [exact Hne|]. split; [|split].
  - intros body. unfold page_description.
    destruct (join (py " ") _) as [|c r]; cbn [nonempty]; [exact Hne | discriminate].
  - rewrite Hsum. apply strip_get_text_strip.
  - rewrite Hver. apply strip_get_text_strip.
Qed.

(** The reference of the first scenario. *)
Lemma parsed_reference_invariants_witness :
  cve_id_pattern (v_cve_id example_vuln) = true
  /\ part_of (v_cve_id example_vuln) (v_summary example_vuln)
  /\ v_summary example_vuln <> []
  /\ (forall body,
        page_description scenario_library body (v_summary example_vuln) <> [])
  /\ strip isspace (v_summary example_vuln) = v_summary example_vuln
  /\ strip isspace (v_version example_vuln) = v_version example_vuln.
Proof.
  exact (parsed_reference_invariants scenario_library scenario_bulletin_text
           [ example_vuln ] example_vuln eq_refl (or_introl eq_refl)).
Defined.

(** ** The retry loop in any world *)

Lemma fetchers_run L E cve attempts h :
  (exists k body,
     (k < length attempts)%nat
     /\ first_success E (v_link cve) h k body
     /\ fetch_json_attempts L E cve attempts h
        = (Ok (Some (record_path (v_cve_id cve))),
           Sleep 500 :: saved_record L cve body :: Get (v_link cve)
           :: failed_attempts (v_link cve) k ++ h)
     /\ fetch_attempts L E cve attempts h
        = (Ok None,
           Sleep 700 :: saved_record L cve body :: Get (v_link cve)
           :: failed_attempts (v_link cve) k ++ h))
  \/ ((forall j, (j < length attempts)%nat ->
                 requests_get E (failed_attempts (v_link cve) j ++ h) (v_link cve)
                 = None)
      /\ fetch_json_attempts L E cve attempts h
         = (Ok None, failed_attempts (v_link cve) (length attempts) ++ h)
      /\ fetch_attempts L E cve attempts h
         = (Ok None, failed_attempts (v_link cve) (length attempts) ++ h)).
Proof.
  revert h. induction attempts as [|a rest IH]; intros h.
  - right. split; [intros j Hj; cbn in Hj; lia | split; reflexivity].
  - cbn [fetch_json_attempts fetch_attempts length].
    unfold except_RequestException.
    destruct (requests_get E h (v_link cve)) as [body|] eqn:Hget.
    + left. exists 0%nat, body.
      rewrite (try_fetch_json_ok L E cve h body Hget).
      rewrite (try_fetch_ok L E cve h body Hget).
      split; [lia|]. split; [|split; reflexivity].
      split; [intros j Hj; lia | exact Hget].
    + rewrite (try_fetch_json_fail L E cve h Hget).
      rewrite (try_fetch_fail L E cve h Hget).
      unfold bind, sleep, emit.
      destruct (IH (Sleep 2000 :: Get (v_link cve) :: h))
        as [(k & body & Hk & [Hfail Hok] & Hj & Hp)|(Hfail & Hj & Hp)].
      * left. exists (S k), body. split; [lia|]. split; [split|].
        -- intros [|j] Hlt; [exact Hget|].
           rewrite failed_attempts_S. apply Hfail. lia.
        -- rewrite failed_attempts_S. exact Hok.
        -- rewrite Hj, Hp, failed_attempts_S. split; reflexivity.
      * right. split.
        -- intros [|j] Hlt; [exact Hget|].
           rewrite failed_attempts_S. apply Hfail. lia.
        -- rewrite Hj, Hp, failed_attempts_S. split; reflexivity.
Qed.

Lemma length_py_range_any (retries : Z) :
  length (py_range 1 (retries + 1)) = Z.to_nat retries.
Proof.
  unfold py_range. rewrite length_fmap, length_seq. f_equal. lia.
Qed.

Lemma first_success_unique E link h k body k' body' :
  first_success E link h k body -> first_success E link h k' body' ->
  k = k' /\ body = body'.
Proof.
  intros [Hfail Hok] [Hfail' Hok'].
  destruct (Nat.lt_trichotomy k k') as [Hlt|[->|Hlt]].
  - rewrite (Hfail' k Hlt) in Hok. discriminate.
  - split; [reflexivity | congruence].
  - rewrite (Hfail k' Hlt) in Hok'. discriminate.
Qed.

(** When the request is answered for the first time at attempt
    [k + 1] and that attempt is within the budget, both fetchers stop
    there, with the record of that answer written. *)
Lemma fetchers_first_success L E cve retries h k body :
  (k < Z.to_nat retries)%nat ->
  first_success E (v_link cve) h k body ->
  fetch_and_save_cve_json L E cve retries h
  = (Ok (Some (record_path (v_cve_id cve))),
     Sleep 500 :: saved_record L cve body :: Get (v_link cve)
     :: failed_attempts (v_link cve) k ++ h)
  /\ fetch_and_save_cve L E cve retries h
     = (Ok None,
        Sleep 700 :: saved_record L cve body :: Get (v_link cve)
        :: failed_attempts (v_link cve) k ++ h).
Proof.
  intros Hk Hfirst. unfold fetch_and_save_cve_json, fetch_and_save_cve.
  destruct (fetchers_run L E cve (py_range 1 (retries + 1)) h)
    as [(k' & body' & _ & Hfirst' & Hj & Hp)|(Hfail & _)].
  - destruct (first_success_unique _ _ _ _ _ _ _ Hfirst Hfirst') as [-> ->].
    split; assumption.
  - rewrite length_py_range_any in Hfail.
    destruct Hfirst as [_ Hok]. rewrite (Hfail k Hk) in Hok. discriminate.
Qed.

(** C2 (amended): when the request for the detail page is answered
    for the first time within the attempts allowed, both fetchers
    write one record for the reference, and its description is the
    texts of the paragraphs of the content region of that answer, in
    document order, joined by single spaces, whenever this string is
    not empty, and the summary of the reference when it is empty: that
    is, when the region has no paragraph or when it has exactly one
    paragraph whose text is empty. *)
Theorem record_description
    (L : library) (E : environment) (cve : vuln) (retries : Z) (h : history)
    (k : nat) (body : pystr) :
  (k < Z.to_nat retries)%nat ->
  first_success E (v_link cve) h k body ->
  let texts := get_text_strip <$> select_content_p (BeautifulSoup L body) in
  exists d data,
    fetch_and_save_cve_json L E cve retries h
    = (Ok (Some (record_path (v_cve_id cve))),
       Sleep 500
       :: WriteFile (record_path (v_cve_id cve)) (JsonFile (JObject data))
       :: Get (v_link cve) :: failed_attempts (v_link cve) k ++ h)
    /\ fetch_and_save_cve L E cve retries h
       = (Ok None,
          Sleep 700
          :: WriteFile (record_path (v_cve_id cve)) (JsonFile (JObject data))
          :: Get (v_link cve) :: failed_attempts (v_link cve) k ++ h)
    /\ data !! py "description" = Some (JString d)
    /\ (join (py " ") texts <> [] -> d = join (py " ") texts)
    /\ (join (py " ") texts = [] -> d = v_summary cve)
    /\ (join (py " ") texts = [] <-> texts = [] \/ texts = [[]]).
Proof.
  intros Hk Hfirst. cbv zeta.
  destruct (cve_data_description cve (page_description L body (v_summary cve)))
    as (data & Hdata & Hd).
  exists (page_description L body (v_summary cve)), data.
  destruct (fetchers_first_success L E cve retries h k body Hk Hfirst)
    as [-> ->].
  unfold saved_record. fold (record_path (v_cve_id cve)). rewrite Hdata.
  split; [reflexivity|]. split; [reflexivity|]. split; [exact Hd|].
  destruct (page_description_cases L body (v_summary cve)) as [H1 H2].
  split; [exact H1|]. split; [exact H2|].
  apply join_empty. discriminate.
Qed.

(** The detail page of the first scenario, answered at the first
    attempt: the description is the two paragraphs joined by a space. *)
Lemma record_description_witness :
  exists d data,
    fetch_and_save_cve_json scenario_library (scenario_site true) example_vuln 3 []
    = (Ok (Some (record_path (v_cve_id example_vuln))),
       [ Sleep 500;
         WriteFile (record_path (v_cve_id example_vuln)) (JsonFile (JObject data));
         Get (v_link example_vuln) ])
    /\ data !! py "description" = Some (JString d)
    /\ d = py "Heap overflow. Fix in 1.0.1.".
Proof.
  destruct (record_description scenario_library (scenario_site true)
              example_vuln 3 [] 0 scenario_detail_text)
    as (d & data & Hjson & _ & Hd & Hjoin & _).
  - vm_compute. lia.
  - split; [intros j Hj; lia | reflexivity].
  - exists d, data. split; [exact Hjson|]. split; [exact Hd|].
    apply Hjoin. vm_compute. discriminate.
Defined.


Lemma record_path_inside id :
  record_path id = py "data/parsed/cves/" ++ safe_filename id ++ py ".json".
Proof.
  unfold record_path.
  destruct (path_join_cases CVES_DIR (safe_filename id ++ py ".json"))
    as [(r & Heq & _)| ->]; [|reflexivity].
  exfalso. destruct (safe_filename id) as [|c s] eqn:Hs; [discriminate|].
  cbn in Heq. injection Heq as -> _.
  pose proof (safe_filename_safe id) as Hsafe. rewrite Hs in Hsafe.
  apply Forall_cons in Hsafe as [Hc _]. vm_compute in Hc. discriminate.
Qed.

Lemma requests_made_failed_only url n :
  requests_made (failed_attempts url n) = n.
Proof.
  rewrite <- (app_nil_r (failed_attempts url n)), requests_made_failed.
  cbn. lia.
Qed.

Lemma written_paths_failed_only url n : written_paths (failed_attempts url n) = [].
Proof.
  rewrite <- (app_nil_r (failed_attempts url n)), written_paths_failed.
  reflexivity.
Qed.

Lemma within_footprint_success L cve budget pause body k h :
  (k < budget)%nat ->
  within_footprint cve budget h
    (Sleep pause :: saved_record L cve body :: Get (v_link cve)
     :: failed_attempts (v_link cve) k ++ h).
Proof.
  intros Hk.
  exists (Sleep pause :: saved_record L cve body :: Get (v_link cve)
          :: failed_attempts (v_link cve) k).
  split; [reflexivity|]. split.
  - change (requests_made (Sleep pause :: saved_record L cve body
                           :: Get (v_link cve) :: ?l))
      with (S (requests_made l)).
    rewrite requests_made_failed_only. lia.
  - right.
    change (written_paths (Sleep pause :: saved_record L cve body
                           :: Get (v_link cve) :: ?l))
      with (record_path (v_cve_id cve) :: written_paths l).
    rewrite written_paths_failed_only, record_path_inside. reflexivity.
Qed.

Lemma within_footprint_failure cve budget h :
  within_footprint cve budget h (failed_attempts (v_link cve) budget ++ h).
Proof.
  exists (failed_attempts (v_link cve) budget). split; [reflexivity|].
  rewrite requests_made_failed_only, written_paths_failed_only.
  split; [lia | left; reflexivity].
Qed.

(** X8: whatever the identifier of a reference holds and whatever the
    site answers, a call of either fetcher makes at most [retries]
    requests and writes at most one file, and that file lies directly
    in [data/parsed/cves]: its name is the safe form of the identifier
    followed by [.json] and holds no path separator. *)
Theorem fetcher_footprint
    (L : library) (E : environment) (cve : vuln) (retries : Z) (h : history) :
  within_footprint cve (Z.to_nat retries) h
    (snd (fetch_and_save_cve_json L E cve retries h))
  /\ within_footprint cve (Z.to_nat retries) h
       (snd (fetch_and_save_cve L E cve retries h))
  /\ Forall (fun c => c <> ch "/") (safe_filename (v_cve_id cve) ++ py ".json").
Proof.
  unfold fetch_and_save_cve_json, fetch_and_save_cve.
  rewrite <- (length_py_range_any retries).
  split; [|split].
  - destruct (fetchers_run L E cve (py_range 1 (retries + 1)) h)
      as [(k & body & Hk & _ & -> & _)|(_ & -> & _)]; cbn [snd].
    + apply within_footprint_success, Hk.
    + apply within_footprint_failure.
  - destruct (fetchers_run L E cve (py_range 1 (retries + 1)) h)
      as [(k & body & Hk & _ & _ & ->)|(_ & _ & ->)]; cbn [snd].
    + apply within_footprint_success, Hk.
    + apply within_footprint_failure.
  - apply Forall_app. split.
    + eapply Forall_impl; [apply safe_filename_safe|].
      intros c Hc. apply safe_char_not_slash, Hc.
    + repeat constructor; discriminate.
Qed.

(** ** From the page to the record, and from the record to the files *)

Lemma fetch_and_save_cve_json_first_run L E cve retries h body :
  (1 <= retries)%Z ->
  requests_get E h (v_link cve) = Some body ->
  fetch_and_save_cve_json L E cve retries h
  = (Ok (Some (record_path (v_cve_id cve))),
     Sleep 500 :: saved_record L cve body :: Get (v_link cve) :: h).
Proof.
  intros H1 Hok. unfold fetch_and_save_cve_json.
  destruct (py_range_first retries H1) as (rest & ->).
  cbn [fetch_json_attempts]. unfold except_RequestException.
  rewrite (try_fetch_json_ok L E cve h body Hok). reflexivity.
Qed.

(** X9: a detail page without a content region (no tag with the [id]
    [content]) yields no paragraph, whatever else it holds, and the
    record takes the summary of the reference as its description. *)
Theorem no_content_region_falls_back
    (L : library) (E : environment) (cve : vuln) (retries : Z) (h : history)
    (body : pystr) :
  (1 <= retries)%Z ->
  requests_get E h (v_link cve) = Some body ->
  no_content_region (BeautifulSoup L body) ->
  select_content_p (BeautifulSoup L body) = []
  /\ fetch_and_save_cve_json L E cve retries h
     = (Ok (Some (record_path (v_cve_id cve))),
        Sleep 500
        :: WriteFile (record_path (v_cve_id cve))
             (JsonFile (cve_data cve (v_summary cve)))
        :: Get (v_link cve) :: h).
Proof.
  intros H1 Hok Hno.
  assert (Hsel : select_content_p (BeautifulSoup L body) = [])
    by (apply select_p_none, Hno).
  split; [exact Hsel|].
  rewrite (fetch_and_save_cve_json_first_run L E cve retries h body H1 Hok).
  unfold saved_record, page_description. rewrite Hsel. reflexivity.
Qed.

(** A site that answers with a bulletin where a detail page is due. *)
Lemma no_content_region_falls_back_witness :
  fetch_and_save_cve_json (example_library two_headings_one_list)
    (server_up two_headings_text) example_vuln 3 []
  = (Ok (Some example_record_path),
     [ Sleep 500;
       WriteFile example_record_path
         (JsonFile (cve_data example_vuln (v_summary example_vuln)));
       Get (v_link example_vuln) ]).
Proof.
  refine (proj2 (no_content_region_falls_back
                   (example_library two_headings_one_list)
                   (server_up two_headings_text) example_vuln 3 []
                   two_headings_text _ eq_refl _)).
  - lia.
  - unfold no_content_region. cbn [all_nodes]. vm_compute.
    repeat constructor; discriminate.
Defined.

Lemma written_latest path content h :
  written path (WriteFile path content :: h) = Some content.
Proof. cbn [written]. rewrite bool_decide_eq_true_2 by reflexivity. reflexivity. Qed.

Lemma cve_of_data_saved L cve d :
  cve_of_data L (cve_data cve d)
  = if cve_id_constraint L (v_cve_id cve)
    then match HttpUrl L (v_link cve) with
         | Some url =>
             Some {| cve_id := v_cve_id cve; affected_version := v_version cve;
                     description := d; source_url := Some url |}
         | None => None
         end
    else None.
Proof.
  unfold cve_data. cbn [cve_of_data]. unfold dict_get.
  rewrite lookup_insert_eq.
  rewrite (lookup_insert_ne _ (py "cve_id") (py "affected_version")) by discriminate.
  rewrite lookup_insert_eq.
  rewrite (lookup_insert_ne _ (py "cve_id") (py "description")) by discriminate.
  rewrite (lookup_insert_ne _ (py "affected_version") (py "description"))
    by discriminate.
  rewrite lookup_insert_eq.
  rewrite (lookup_insert_ne _ (py "cve_id") (py "source_url")) by discriminate.
  rewrite (lookup_insert_ne _ (py "affected_version") (py "source_url"))
    by discriminate.
  rewrite (lookup_insert_ne _ (py "description") (py "source_url")) by discriminate.
  rewrite lookup_insert_eq.
  unfold CVE_init. cbn [validate_str validate_optional_url].
  destruct (HttpUrl L (v_link cve));
    destruct (cve_id_constraint L (v_cve_id cve)); reflexivity.
Qed.

(** X10: the record [fetch_and_save_cve_json] saves at the first
    successful attempt is read back by the validator as it was
    written, with the description of the page that attempt received.
    It is accepted exactly when the identifier of the reference meets
    the constraint of the field [cve_id] and the link is a valid URL;
    the accepted record holds the identifier, the version and the
    description of the saved one, and the link as the URL type prints
    it. *)
Theorem saved_record_validates
    (L : library) (E : environment) (cve : vuln) (retries : Z) (h : history)
    (k : nat) (body : pystr) :
  (k < Z.to_nat retries)%nat ->
  first_success E (v_link cve) h k body ->
  let d := page_description L body (v_summary cve) in
  let h' := Sleep 500 :: WriteFile (record_path (v_cve_id cve))
                           (JsonFile (cve_data cve d))
            :: Get (v_link cve) :: failed_attempts (v_link cve) k ++ h in
  fetch_and_save_cve_json L E cve retries h
  = (Ok (Some (record_path (v_cve_id cve))), h')
  /\ read_file E h' (record_path (v_cve_id cve)) = Some (JsonFile (cve_data cve d))
  /\ load_cve L E h' (record_path (v_cve_id cve))
     = (if cve_id_constraint L (v_cve_id cve)
        then match HttpUrl L (v_link cve) with
             | Some url =>
                 Some {| cve_id := v_cve_id cve;
                         affected_version := v_version cve;
                         description := d;
                         source_url := Some url |}
             | None => None
             end
        else None).
Proof.
  intros Hk Hfirst. cbv zeta.
  split; [exact (proj1 (fetchers_first_success L E cve retries h k body Hk Hfirst))|].
  assert (Hread : read_file E
                    (Sleep 500
                     :: WriteFile (record_path (v_cve_id cve))
                          (JsonFile (cve_data cve
                                       (page_description L body (v_summary cve))))
                     :: Get (v_link cve) :: failed_attempts (v_link cve) k ++ h)
                    (record_path (v_cve_id cve))
                  = Some (JsonFile (cve_data cve
                                      (page_description L body (v_summary cve))))).
  { unfold read_file. cbn [written].
    rewrite bool_decide_eq_true_2 by reflexivity. reflexivity. }
  split; [exact Hread|].
  unfold load_cve. rewrite Hread. cbn [load_json]. apply cve_of_data_saved.
Qed.

(** The reference of the first scenario, fetched and read back. *)
Lemma saved_record_validates_witness :
  fetch_and_save_cve_json scenario_library (scenario_site true) example_vuln 3 []
  = (Ok (Some example_record_path),
     [ Sleep 500;
       WriteFile example_record_path
         (JsonFile (cve_data example_vuln (py "Heap overflow. Fix in 1.0.1.")));
       Get (v_link example_vuln) ])
  /\ load_cve scenario_library (scenario_site true)
       [ Sleep 500;
         WriteFile example_record_path
           (JsonFile (cve_data example_vuln (py "Heap overflow. Fix in 1.0.1.")));
         Get (v_link example_vuln) ]
       example_record_path
     = Some example_cve.
Proof.
  pose proof (saved_record_validates scenario_library (scenario_site true)
                example_vuln 3 [] 0 scenario_detail_text) as H.
  destruct H as (Hrun & _ & Hload).
  - vm_compute. lia.
  - split; [intros j Hj; lia | reflexivity].
  - split; [exact Hrun | exact Hload].
Defined.

Lemma load_cve_pattern L E h path c :
  load_cve L E h path = Some c -> CVE_shaped (pydantic_digit L) (cve_id c).
Proof.
  unfold load_cve.
  destruct (read_file E h path) as [f|]; [|discriminate].
  destruct (load_json L f) as [data|]; [|discriminate].
  intros (d & _ & _ & Hp & _)%cve_of_data_Some.
  apply cve_id_constraint_shaped, Hp.
Qed.

Lemma decimal_no_slash L c : pydantic_digit L c = true -> c <> ch "/".
Proof. intros Hc ->. vm_compute in Hc. discriminate. Qed.

Lemma shaped_no_slash L id :
  CVE_shaped (pydantic_digit L) id -> Forall (fun c => c <> ch "/") id.
Proof.
  intros (year & num & -> & _ & Hyear & _ & Hnum).
  assert (Hd : forall s, forallb (pydantic_digit L) s = true ->
                         Forall (fun c => c <> ch "/") s).
  { intros s Hs. apply Forall_forall. intros c Hc%list_elem_of_In.
    apply (decimal_no_slash L). exact (proj1 (forallb_forall _ _) Hs c Hc). }
  apply Forall_app. split; [repeat constructor; discriminate|].
  apply Forall_app. split; [apply Hd, Hyear|].
  apply Forall_app. split; [repeat constructor; discriminate | apply Hd, Hnum].
Qed.

Lemma content_path_inside digit id ext :
  CVE_shaped digit id ->
  content_path id ext = py "Content/OpenOffice/CVEs/" ++ id ++ ext.
Proof.
  intros (year & num & -> & _). unfold content_path.
  rewrite <- !app_assoc. reflexivity.
Qed.

Lemma content_path_ext digit id ext1 ext2 :
  CVE_shaped digit id -> ext1 <> ext2 ->
  content_path id ext1 <> content_path id ext2.
Proof.
  intros Hid Hne. rewrite !(content_path_inside _ _ _ Hid).
  intros Heq. apply app_inv_head, app_inv_head in Heq. contradiction.
Qed.

(** X11: once a record is rendered, its three documents can be read
    back from [Content/OpenOffice/CVEs], each under the identifier
    followed by its extension, whatever these files held before.  The
    identifier of a validated record holds no path separator, so the
    three files lie directly in that directory. *)
Theorem rendered_documents_read_back
    (L : library) (E : environment) (path : pystr) (h : history) (c : CVE) :
  load_cve L E h path = Some c ->
  let h' := snd (generate_cve_content L E path h) in
  read_file E h' (py "Content/OpenOffice/CVEs/" ++ cve_id c ++ py ".xml")
  = Some (XmlFile (vulnerability_xml c))
  /\ read_file E h' (py "Content/OpenOffice/CVEs/" ++ cve_id c ++ py ".sol")
     = Some (XmlFile (solution_xml c))
  /\ (exists t,
        read_file E h' (py "Content/OpenOffice/CVEs/" ++ cve_id c ++ py ".vck")
        = Some (XmlFile (plugin_entry_xml c t)))
  /\ Forall (fun c => c <> ch "/") (cve_id c).
Proof.
  intros Hload. cbv zeta.
  pose proof (load_cve_pattern L E h path c Hload) as Hid.
  rewrite (generate_cve_content_Some L E path h c Hload). cbn [snd].
  fold (content_path (cve_id c) (py ".xml")).
  fold (content_path (cve_id c) (py ".sol")).
  fold (content_path (cve_id c) (py ".vck")).
  rewrite <- !(content_path_inside _ _ _ Hid).
  unfold read_file.
  split; [|split; [|split]].
  - rewrite written_other by (apply (content_path_ext _ _ _ _ Hid); discriminate).
    rewrite written_other by (apply (content_path_ext _ _ _ _ Hid); discriminate).
    rewrite written_latest. reflexivity.
  - rewrite written_other by (apply (content_path_ext _ _ _ _ Hid); discriminate).
    rewrite written_latest. reflexivity.
  - eexists. rewrite written_latest. reflexivity.
  - apply (shaped_no_slash L), Hid.
Qed.

(** The saved example record, rendered. *)
Lemma rendered_documents_read_back_witness :
  read_file server_down
    (snd (generate_cve_content (example_library empty_paragraph_page)
            server_down example_record_path example_saved))
    (py "Content/OpenOffice/CVEs/CVE-2021-9999.xml")
  = Some (XmlFile (vulnerability_xml example_cve)).
Proof.
  exact (proj1 (rendered_documents_read_back
                  (example_library empty_paragraph_page) server_down
                  example_record_path example_saved example_cve eq_refl)).
Defined.

(** X14: rendering touches the three documents of the record and
    nothing else: every other file reads after [generate_cve_content]
    as it read before, and a rejected candidate leaves every file as it
    was. *)
Theorem rendering_leaves_other_files
    (L : library) (E : environment) (path : pystr) (h : history) (p : pystr) :
  (forall c, load_cve L E h path = Some c ->
             p <> path_join CVES_CONTENT_DIR (cve_id c ++ py ".xml")
             /\ p <> path_join CVES_CONTENT_DIR (cve_id c ++ py ".sol")
             /\ p <> path_join CVES_CONTENT_DIR (cve_id c ++ py ".vck")) ->
  read_file E (snd (generate_cve_content L E path h)) p = read_file E h p.
Proof.
  intros Hp. destruct (load_cve L E h path) as [c|] eqn:Hload.
  - destruct (Hp c eq_refl) as (Hx & Hs & Hv).
    rewrite (generate_cve_content_Some L E path h c Hload). cbn [snd].
    unfold read_file.
    rewrite !written_other by (intros Heq; symmetry in Heq; contradiction).
    reflexivity.
  - rewrite (generate_cve_content_None L E path h Hload). reflexivity.
Qed.

(** The saved example record is still there after it has been
    rendered. *)
Lemma rendering_leaves_other_files_witness :
  read_file server_down
    (snd (generate_cve_content (example_library empty_paragraph_page)
            server_down example_record_path example_saved))
    example_record_path
  = read_file server_down example_saved example_record_path.
Proof.
  apply (rendering_leaves_other_files (example_library empty_paragraph_page)
           server_down example_record_path example_saved example_record_path).
  intros c Hc. vm_compute in Hc. injection Hc as <-.
  repeat split; intros Heq; vm_compute in Heq; discriminate.
Defined.

(** ** Paths of the output *)




(** ** The run on a file system that can refuse a write *)

Section DiskRun.
Variable w : history -> pystr -> bool.
Variable L : library.
Variable E : environment.





End DiskRun.








(** ** The advisory fetcher as a whole *)









(** ** The two models of the file system

    On a file system that takes every write, the programs of [Disk]
    are the programs above. *)

Section Writable.
Variable w : history -> pystr -> bool.
Hypothesis all_writable : forall h p, w h p = true.
Variable L : library.
Variable E : environment.

Lemma disk_write_file path content h :
  Disk.write_file w path content h = write_file path content h.
Proof. unfold Disk.write_file. rewrite all_writable. reflexivity. Qed.

Lemma disk_try_fetch_json cve h :
  Disk.try_fetch_json w L E cve h = try_fetch_json L E cve h.
Proof.
  unfold Disk.try_fetch_json, try_fetch_json, bind.
  destruct (http_get E (v_link cve) h) as [[body|e] h1]; [|reflexivity].
  rewrite disk_write_file. reflexivity.
Qed.


Lemma disk_fetch_json_attempts cve attempts h :
  Disk.fetch_json_attempts w L E cve attempts h
  = fetch_json_attempts L E cve attempts h.
Proof.
  revert h. induction attempts as [|a rest IH]; intros h; [reflexivity|].
  cbn [Disk.fetch_json_attempts fetch_json_attempts].
  unfold except_RequestException. rewrite disk_try_fetch_json.
  destruct (try_fetch_json L E cve h) as [[o|[]] h1]; try reflexivity.
  unfold bind. destruct (sleep 2000 h1) as [[[]|e] h2]; [apply IH | reflexivity].
Qed.


Lemma disk_generate_cve_content path h :
  Disk.generate_cve_content w L E path h = generate_cve_content L E path h.
Proof.
  unfold Disk.generate_cve_content, generate_cve_content.
  destruct (load_cve L E h path) as [c|]; [|reflexivity].
  unfold bind, Disk.write_xml, write_xml, now, Disk.write_file, write_file, emit.
  rewrite !all_writable. reflexivity.
Qed.

Lemma for_each_ext {S A} (f g : S -> A -> M S) l s h :
  (forall s x h, f s x h = g s x h) -> for_each f s l h = for_each g s l h.
Proof.
  intros Hfg. revert s h. induction l as [|x rest IH]; intros s h; [reflexivity|].
  cbn [for_each]. unfold bind. rewrite Hfg.
  destruct (g s x h) as [[s'|e] h1]; [apply IH | reflexivity].
Qed.

Lemma disk_process validated cve h :
  Disk.process w L E validated cve h = process L E validated cve h.
Proof.
  unfold Disk.process, process, bind, Disk.fetch_and_save_cve_json,
    fetch_and_save_cve_json.
  rewrite disk_fetch_json_attempts.
  destruct (fetch_json_attempts L E cve _ h) as [[[path|]|e] h1]; try reflexivity.
  rewrite disk_generate_cve_content. reflexivity.
Qed.

Lemma disk_main h : Disk.main w L E h = main L E h.
Proof.
  unfold Disk.main, main, bind, Disk.fetch_advisory_index, fetch_advisory_index,
    bind.
  destruct (http_get E BASE_URL h) as [[html|e] h1]; [|reflexivity].
  rewrite disk_write_file.
  destruct (write_file _ _ h1) as [[[]|e] h2]; [|reflexivity].
  unfold ret. destruct (lift (parse_vulnerabilities L html) h2)
    as [[vulns|e] h3]; [|reflexivity].
  rewrite (for_each_ext (Disk.process w L E) (process L E))
    by (intros; apply disk_process).
  destruct (for_each (process L E) [] vulns h3) as [[validated|e] h4];
    [|reflexivity].
  unfold Disk.generate_product_vck, generate_product_vck, bind, now,
    Disk.write_xml, write_xml.
  apply disk_write_file.
Qed.

End Writable.



(** A file system on which the directories of the records cannot be
    created stops the advisory fetcher before its first request. *)
Example advisory_main_without_directories :
  Disk.advisory_main (fun _ _ => false) scenario_library (scenario_site true) []
  = (Raise OSError, []).
Proof. reflexivity. Qed.
